(** * search_web_py.py: the web search tool of the agent workflow

    The tool is a command-line entry point: it reads [sys.argv], decodes the
    first argument with [json.loads], reads its [query] field and prints either
    a placeholder result on standard output or a JSON error object on standard
    error.  This file embeds the program together with the part of the Python
    runtime it calls (str, int, float, list and dict values, truthiness,
    [json.loads], [json.dumps], [print], [sys.exit], exceptions) and proves the
    properties of its command-line interface.

    Conventions.  A Python [str] is a sequence of Unicode code points
    ([list N]).  What [json.dumps] produces with its default [ensure_ascii] is
    ASCII text, so the two output streams are Rocq strings.  A Python [float]
    is an IEEE 754 binary64 value ([spec_float], precision 53, [emax] 1024).
    [int] refuses a decimal literal of more than 4300 digits, the default of
    [sys.set_int_max_str_digits].  The decoder stops at the recursion limit
    of a default interpreter, 1000, as CPython 3.11 counts it when the
    script is run and [main] calls [json.loads]: 994 nested containers are
    read, the next one raises [RecursionError], and so do the calls that
    the scanner makes from inside the last containers.  The encoder has the
    same bound, which the result object cannot exceed: it nests no deeper
    than the decoded argument (see [DecoderFacts.loads_nesting]).  The
    memory of one interpreter run is not part of the model. *)

From Stdlib Require Import ZArith NArith List String Ascii Bool Lia.
From Stdlib Require Import DecimalString.
From Stdlib Require Import Floats.SpecFloat.
Import ListNotations.

Local Open Scope Z_scope.

(** ** Python strings *)

Definition pystr := list N.

(** The code point of an ASCII character, [ord] in Python. *)
Definition ord (c : ascii) : N := N_of_ascii c.

(** An ASCII literal of the source as a Python [str]. *)
Definition ustr (s : string) : pystr := map ord (list_ascii_of_string s).

Fixpoint str_eqb (a b : pystr) : bool :=
  match a, b with
  | [], [] => true
  | x :: a', y :: b' => N.eqb x y && str_eqb a' b'
  | _, _ => false
  end.

(** The double quote, which a Rocq string literal cannot hold undoubled. *)
Definition dquote : ascii := ascii_of_nat 34.

(** ** Python floats *)

Module Float.

Definition prec : Z := 53.
Definition emax : Z := 1024.

(** [float(s)] for a decimal literal [(-1)^neg * m * 10^e]: the binary64
    value nearest to the exact decimal, ties to even; overflow gives an
    infinity and underflow a signed zero. *)
Definition of_decimal (neg : bool) (m : N) (e : Z) : spec_float :=
  match m with
  | N0 => S754_zero neg
  | Npos p =>
      if 0 <=? e
      then binary_normalize prec emax (cond_Zopp neg (Zpos p * 10 ^ e)) 0 neg
      else SFdiv prec emax (S754_finite neg p 0)
                 (S754_finite false (Z.to_pos (10 ^ (- e))) 0)
  end.

Definition nan : spec_float := S754_nan.
Definition inf (neg : bool) : spec_float := S754_infinity neg.

(** [bool(x)] of a float: every value but the two zeros is true. *)
Definition truthy (x : spec_float) : bool :=
  match x with
  | S754_zero _ => false
  | _ => true
  end.

Definition eqb_repr (x y : spec_float) : bool :=
  match x, y with
  | S754_zero a, S754_zero b => Bool.eqb a b
  | S754_infinity a, S754_infinity b => Bool.eqb a b
  | S754_nan, S754_nan => true
  | S754_finite a m e, S754_finite b n f =>
      Bool.eqb a b && Pos.eqb m n && Z.eqb e f
  | _, _ => false
  end.

(** *** [float.__repr__]

    The shortest decimal string that reads back as the same float, the
    one nearest to the float among the shortest, laid out as CPython's
    format code ['r'] does. *)

(** The rational [num / den] times [10^k]. *)
Definition scale10 (k : Z) (q : Z * Z) : Z * Z :=
  let '(num, den) := q in
  if 0 <=? k then (num * 10 ^ k, den) else (num, den * 10 ^ (- k)).

(** The exact value [m * 2^e] as a fraction. *)
Definition exact (m : positive) (e : Z) : Z * Z :=
  if 0 <=? e then (Zpos m * 2 ^ e, 1) else (Zpos m, 2 ^ (- e)).

(** The least [k' >= k] with [v < 10^k'], looking at [fuel] candidates. *)
Fixpoint decpt_from (fuel : nat) (k : Z) (v : Z * Z) : Z :=
  match fuel with
  | O => k
  | S fuel' =>
      let '(num, den) := scale10 (- k) v in
      if num <? den then k else decpt_from fuel' (k + 1) v
  end.

(** Binary64 values lie between [10^-324] and [10^309]. *)
Definition decpt (v : Z * Z) : Z := decpt_from 640 (-324) v.

(** The integers next to [v * 10^(n-k)], the nearer one first (the even one
    on a tie). *)
Definition candidates (v : Z * Z) (k n : Z) : list Z :=
  let '(num, den) := scale10 (n - k) v in
  let q := num / den in
  let r := num mod den in
  if r =? 0 then [q]
  else match 2 * r ?= den with
       | Lt => [q; q + 1]
       | Gt => [q + 1; q]
       | Eq => if Z.even q then [q; q + 1] else [q + 1; q]
       end.

Definition reads_back (m : positive) (e : Z) (k n d : Z) : bool :=
  eqb_repr (of_decimal false (Z.to_N d) (k - n)) (S754_finite false m e).

(** The digits [d] and the exponent [x] of the shortest decimal [d * 10^x]
    that reads back as [m * 2^e], trying [count] lengths from [n] on. *)
Fixpoint shortest_from (count : nat) (n : Z) (m : positive) (e : Z)
         (v : Z * Z) (k : Z) : Z * Z :=
  let cands := candidates v k n in
  match count with
  | O => (hd 0 cands, k - n)
  | S count' =>
      match find (reads_back m e k n) cands with
      | Some d => (d, k - n)
      | None => shortest_from count' (n + 1) m e v k
      end
  end.

(** Seventeen significant digits always identify a binary64 value. *)
Definition shortest (m : positive) (e : Z) : Z * Z :=
  let v := exact m e in
  shortest_from 16 1 m e v (decpt v).

Definition digits_of (d : Z) : list ascii :=
  list_ascii_of_string (NilZero.string_of_uint (N.to_uint (Z.to_N d))).

Fixpoint strip_zeros (rev_digits : list ascii) : list ascii :=
  match rev_digits with
  | c :: r => if Ascii.eqb c "0" then strip_zeros r else rev_digits
  | [] => []
  end.

Definition zeros (n : Z) : list ascii := repeat "0"%char (Z.to_nat n).

(** The exponent of the ['r'] layout: a sign and at least two digits. *)
Definition exponent_text (x : Z) : list ascii :=
  let ds := digits_of (Z.abs x) in
  (if x <? 0 then "-"%char else "+"%char)
    :: (if (List.length ds <? 2)%nat then "0"%char :: ds else ds).

(** The layout of the digits [ds] with the decimal point after [pt] of
    them: an exponent is used when [pt <= -4] or [pt > 16]; otherwise the
    number is written out, with [.0] after an integer. *)
Definition layout (ds : list ascii) (pt : Z) : list ascii :=
  let nd := Z.of_nat (List.length ds) in
  if (pt <=? -4) || (16 <? pt) then
    match ds with
    | [] => []
    | d1 :: rest =>
        (d1 :: match rest with [] => [] | _ => "."%char :: rest end)
          ++ "e"%char :: exponent_text (pt - 1)
    end
  else if pt <=? 0 then
    "0"%char :: "."%char :: zeros (- pt) ++ ds
  else if nd <=? pt then
    ds ++ zeros (pt - nd) ++ ["."%char; "0"%char]
  else
    firstn (Z.to_nat pt) ds ++ "."%char :: skipn (Z.to_nat pt) ds.

Definition repr_finite (m : positive) (e : Z) : list ascii :=
  let '(d, x) := shortest m e in
  let all := digits_of d in
  let ds := rev (strip_zeros (rev all)) in
  layout ds (Z.of_nat (List.length all) + x).

Definition sign_text (neg : bool) : string :=
  if neg then "-"%string else ""%string.

Definition repr (x : spec_float) : string :=
  match x with
  | S754_nan => "nan"%string
  | S754_infinity neg => (sign_text neg ++ "inf")%string
  | S754_zero neg => (sign_text neg ++ "0.0")%string
  | S754_finite neg m e =>
      (sign_text neg ++ string_of_list_ascii (repr_finite m e))%string
  end.

End Float.

(** ** Python values

    The values [json.loads] can return.  A [dict] keeps its items in
    insertion order; its keys are strings, as JSON member names are. *)

#[local] Unset Elimination Schemes.

Inductive pyobj : Type :=
| PyNone
| PyBool (b : bool)
| PyInt (n : Z)
| PyFloat (x : spec_float)
| PyStr (s : pystr)
| PyList (items : list pyobj)
| PyDict (items : list (pystr * pyobj)).

#[local] Set Elimination Schemes.

(** [type(v).__name__] *)
Definition type_name (v : pyobj) : string :=
  match v with
  | PyNone => "NoneType"
  | PyBool _ => "bool"
  | PyInt _ => "int"
  | PyFloat _ => "float"
  | PyStr _ => "str"
  | PyList _ => "list"
  | PyDict _ => "dict"
  end.

(** [bool(v)], the test behind [if not query]. *)
Definition truthy (v : pyobj) : bool :=
  match v with
  | PyNone => false
  | PyBool b => b
  | PyInt n => negb (n =? 0)
  | PyFloat x => Float.truthy x
  | PyStr s => match s with [] => false | _ => true end
  | PyList l => match l with [] => false | _ => true end
  | PyDict d => match d with [] => false | _ => true end
  end.

(** [d.get(key)] on the items of a dict: [None] when the key is missing. *)
Fixpoint dict_get (d : list (pystr * pyobj)) (key : pystr) : option pyobj :=
  match d with
  | [] => None
  | (k, v) :: d' => if str_eqb k key then Some v else dict_get d' key
  end.

(** [d[key] = v]: a key already there keeps its place and takes the new
    value; a new key goes last. *)
Fixpoint dict_set (d : list (pystr * pyobj)) (key : pystr) (v : pyobj)
  : list (pystr * pyobj) :=
  match d with
  | [] => [(key, v)]
  | (k, w) :: d' =>
      if str_eqb k key then (k, v) :: d' else (k, w) :: dict_set d' key v
  end.

(** ** The json module: [json.dumps]

    The encoder with its defaults: [ensure_ascii], [allow_nan], the separators
    [", "] and [": "], no indentation, keys in the order of the dict. *)

Module Encoder.

Local Open Scope string_scope.

Definition hex_digit (n : N) : ascii :=
  match N.land n 15 with
  | 0 => "0" | 1 => "1" | 2 => "2" | 3 => "3" | 4 => "4" | 5 => "5"
  | 6 => "6" | 7 => "7" | 8 => "8" | 9 => "9" | 10 => "a" | 11 => "b"
  | 12 => "c" | 13 => "d" | 14 => "e" | _ => "f"
  end%N%char.

(** ['\\u{0:04x}'.format(n)] for [n < 0x10000] *)
Definition escape_u (n : N) : string :=
  String "\" (String "u"
    (String (hex_digit (N.shiftr n 12)) (String (hex_digit (N.shiftr n 8))
      (String (hex_digit (N.shiftr n 4)) (String (hex_digit n) ""))))).

(** The replacement of one character: [ESCAPE_DCT], then [\uXXXX], a
    surrogate pair above the basic plane; printable ASCII stands as it is. *)
Definition escape_char (c : N) : string :=
  if (c =? 34)%N then String "\" (String dquote "")
  else if (c =? 92)%N then "\\"
  else if (c =? 10)%N then "\n"
  else if (c =? 13)%N then "\r"
  else if (c =? 9)%N then "\t"
  else if (c =? 12)%N then "\f"
  else if (c =? 8)%N then "\b"
  else if (32 <=? c)%N && (c <=? 126)%N then String (ascii_of_N c) ""
  else if (c <? 65536)%N then escape_u c
  else
    let n := (c - 65536)%N in
    let s1 := N.lor 55296 (N.land (N.shiftr n 10) 1023) in
    let s2 := N.lor 56320 (N.land n 1023) in
    escape_u s1 ++ escape_u s2.

Definition encode_basestring_ascii (s : pystr) : string :=
  String dquote (concat "" (map escape_char s)) ++ String dquote "".

(** [int.__repr__] *)
Definition int_repr (n : Z) : string := NilZero.string_of_int (Z.to_int n).

(** [floatstr]: the three special values by name, [float.__repr__]
    otherwise. *)
Definition floatstr (x : spec_float) : string :=
  match x with
  | S754_nan => "NaN"
  | S754_infinity false => "Infinity"
  | S754_infinity true => "-Infinity"
  | _ => Float.repr x
  end.

Fixpoint dumps (v : pyobj) : string :=
  match v with
  | PyNone => "null"
  | PyBool true => "true"
  | PyBool false => "false"
  | PyInt n => int_repr n
  | PyFloat x => floatstr x
  | PyStr s => encode_basestring_ascii s
  | PyList l => "[" ++ concat ", " (map dumps l) ++ "]"
  | PyDict d =>
      "{" ++ concat ", "
               (map (fun kv => encode_basestring_ascii (fst kv)
                                 ++ ": " ++ dumps (snd kv)) d)
          ++ "}"
  end.

End Encoder.

Definition json_dumps : pyobj -> string := Encoder.dumps.

(** ** The json module: [json.loads]

    The decoder with its defaults ([strict], no hooks), as the scanner of
    CPython reads a [str]: the JSON grammar, and beside it the three
    constants [NaN], [Infinity] and [-Infinity].  When the decoder
    rejects a document it raises [JSONDecodeError]; the message, which the
    program never prints, is left out.  An integer literal that [int]
    refuses for its length raises a plain [ValueError].  A container nested
    deeper than the recursion limit allows raises [RecursionError], and so
    does a call that the scanner makes with too little of the limit left:
    the call of [parse_constant] for [NaN], [Infinity] and [-Infinity], and
    the construction of the [JSONDecodeError] itself. *)

Module Decoder.

Local Open Scope N_scope.

(** What scanning a prefix of the text gives: a value and the text after
    it, a rejection, a [ValueError] with its description, a
    [RecursionError] with its description, or a budget of the model that
    ran out. *)
Inductive scan (A : Type) : Type :=
| Scanned (a : A) (rest : pystr)
| Rejected
| Raised (msg : string)
| TooDeep (msg : string)
| Starved.

Arguments Scanned {A} a rest.
Arguments Rejected {A}.
Arguments Raised {A} msg.
Arguments TooDeep {A} msg.
Arguments Starved {A}.

Definition is_ws (c : N) : bool :=
  (c =? 32) || (c =? 9) || (c =? 10) || (c =? 13).

(** [WHITESPACE.match(s, end).end()] *)
Fixpoint skip_ws (s : pystr) : pystr :=
  match s with
  | c :: r => if is_ws c then skip_ws r else s
  | [] => []
  end.

Definition is_digit (c : N) : bool := (48 <=? c) && (c <=? 57).

(** The text after the prefix [p], when [s] starts with it. *)
Fixpoint strip_prefix (p s : pystr) : option pystr :=
  match p, s with
  | [], _ => Some s
  | a :: p', b :: s' => if a =? b then strip_prefix p' s' else None
  | _ :: _, [] => None
  end.

(** *** Strings *)

Definition hex_value (c : N) : option N :=
  if (48 <=? c) && (c <=? 57) then Some (c - 48)
  else if (97 <=? c) && (c <=? 102) then Some (c - 87)
  else if (65 <=? c) && (c <=? 70) then Some (c - 55)
  else None.

Definition hex4 (a b c d : N) : option N :=
  match hex_value a, hex_value b, hex_value c, hex_value d with
  | Some x, Some y, Some z, Some w => Some (((x * 16 + y) * 16 + z) * 16 + w)
  | _, _, _, _ => None
  end.

(** [BACKSLASH]: the one-letter escapes. *)
Definition backslash (c : N) : option N :=
  if c =? 34 then Some 34
  else if c =? 92 then Some 92
  else if c =? 47 then Some 47
  else if c =? 98 then Some 8
  else if c =? 102 then Some 12
  else if c =? 110 then Some 10
  else if c =? 114 then Some 13
  else if c =? 116 then Some 9
  else None.

Definition is_high_surrogate (u : N) : bool := (55296 <=? u) && (u <=? 56319).
Definition is_low_surrogate (u : N) : bool := (56320 <=? u) && (u <=? 57343).

Definition join_surrogates (hi lo : N) : N :=
  65536 + N.lor (N.shiftl (hi - 55296) 10) (lo - 56320).

Definition push (c : N) (r : option (pystr * pystr)) : option (pystr * pystr) :=
  match r with
  | Some (content, rest) => Some (c :: content, rest)
  | None => None
  end.

(** [scanstring(s, end, strict=True)], from the character after the opening
    quote: the decoded content and the text after the closing quote.  A
    control character, an unknown escape, a malformed [\uXXXX] and a
    missing closing quote are rejected; a high surrogate escape directly
    followed by a low surrogate escape makes one character. *)
Fixpoint scanstring (s : pystr) : option (pystr * pystr) :=
  match s with
  | [] => None
  | c :: r =>
      if c =? 34 then Some ([], r)
      else if c =? 92 then
        match r with
        | [] => None
        | esc :: r1 =>
            if esc =? 117 then
              match r1 with
              | h1 :: h2 :: h3 :: h4 :: r2 =>
                  match hex4 h1 h2 h3 h4 with
                  | None => None
                  | Some uni =>
                      match r2 with
                      | b :: u :: l1 :: l2 :: l3 :: l4 :: r3 =>
                          if is_high_surrogate uni && (b =? 92) && (u =? 117)
                          then match hex4 l1 l2 l3 l4 with
                               | None => None
                               | Some uni2 =>
                                   if is_low_surrogate uni2
                                   then push (join_surrogates uni uni2)
                                             (scanstring r3)
                                   else push uni (scanstring r2)
                               end
                          else push uni (scanstring r2)
                      | _ => push uni (scanstring r2)
                      end
                  end
              | _ => None
              end
            else
              match backslash esc with
              | Some ch => push ch (scanstring r1)
              | None => None
              end
        end
      else if c <? 32 then None
      else push c (scanstring r)
  end.

(** *** Numbers *)

(** The leading digits of [s], as the number they write and their count,
    and the text after them. *)
Fixpoint digits (s : pystr) (acc : N) (count : nat) : N * nat * pystr :=
  match s with
  | c :: r => if is_digit c then digits r (acc * 10 + (c - 48)) (S count)
              else (acc, count, s)
  | [] => (acc, count, [])
  end.

(** The integer part: [0], or a digit from 1 to 9 and any digits. *)
Definition integer_part (s : pystr) : option (N * nat * pystr) :=
  match s with
  | c :: r =>
      if c =? 48 then Some (0, 1%nat, r)
      else if is_digit c then Some (digits s 0 0%nat)
      else None
  | [] => None
  end.

(** The fraction: a point and at least one digit, else nothing is read. *)
Definition fraction_part (s : pystr) : option (N * nat * pystr) :=
  match s with
  | c :: r =>
      if c =? 46 then
        match digits r 0 0%nat with
        | (_, O, _) => None
        | (n, count, rest) => Some (n, count, rest)
        end
      else None
  | [] => None
  end.

(** The exponent: [e] or [E], an optional sign and at least one digit, else
    nothing is read. *)
Definition exponent_part (s : pystr) : option (Z * pystr) :=
  match s with
  | c :: r =>
      if (c =? 101) || (c =? 69) then
        let '(neg, r1) :=
          match r with
          | sg :: r' => if sg =? 45 then (true, r')
                        else if sg =? 43 then (false, r') else (false, r)
          | [] => (false, r)
          end in
        match digits r1 0 0%nat with
        | (_, O, _) => None
        | (n, _, rest) => Some (cond_Zopp neg (Z.of_N n), rest)
        end
      else None
  | [] => None
  end.

(** [sys.int_info.default_max_str_digits] *)
Definition int_max_str_digits : nat := 4300.

(** [int(literal)] for a literal of [count] digits: a [ValueError] above the
    limit. *)
Definition parse_int (neg : bool) (n : N) (count : nat) : pyobj + string :=
  if (int_max_str_digits <? count)%nat
  then inr ("Exceeds the limit ("
              ++ NilZero.string_of_uint (Nat.to_uint int_max_str_digits)
              ++ " digits) for integer string conversion: value has "
              ++ NilZero.string_of_uint (Nat.to_uint count)
              ++ " digits; use sys.set_int_max_str_digits() to increase the limit")%string
  else inl (PyInt (cond_Zopp neg (Z.of_N n))).

(** [NUMBER_RE] and the conversion of what it matched: an [int] when the
    literal has neither fraction nor exponent, a [float] otherwise. *)
Definition match_number (s : pystr) : scan pyobj :=
  let '(neg, s1) :=
    match s with
    | c :: r => if c =? 45 then (true, r) else (false, s)
    | [] => (false, s)
    end in
  match integer_part s1 with
  | None => Rejected
  | Some (i, digits_i, s2) =>
      let '(frac, s3) :=
        match fraction_part s2 with
        | Some (f, count, rest) => (Some (f, count), rest)
        | None => (None, s2)
        end in
      let '(exp, s4) :=
        match exponent_part s3 with
        | Some (x, rest) => (Some x, rest)
        | None => (None, s3)
        end in
      match frac, exp with
      | None, None =>
          match parse_int neg i digits_i with
          | inl v => Scanned v s4
          | inr msg => Raised msg
          end
      | _, _ =>
          let '(f, count) := match frac with Some fc => fc | None => (0, O) end in
          let x := match exp with Some x => x | None => 0%Z end in
          Scanned (PyFloat (Float.of_decimal neg
                              (i * 10 ^ N.of_nat count + f)
                              (x - Z.of_nat count))) s4
      end
  end.

(** *** The recursion limit *)

(** [sys.getrecursionlimit()] of a default interpreter. *)
Definition recursion_limit : nat := 1000.

(** The calls in progress when the scanner reads the first character: the
    module, [main], [json.loads], [JSONDecoder.decode], [raw_decode] and
    the scanner itself. *)
Definition calls_in_progress : nat := 6.

(** How many containers the scanner may enter, one inside the other. *)
Definition nesting_limit : nat := recursion_limit - calls_in_progress.

(** The description of the [RecursionError] at an opening brace or
    bracket. *)
Definition too_deep (container : string) : string :=
  ("maximum recursion depth exceeded while decoding a JSON " ++ container
     ++ " from a unicode string")%string.

(** The description of the [RecursionError] at a call from C. *)
Definition call_too_deep : string :=
  "maximum recursion depth exceeded while calling a Python object"%string.

(** The description of the [RecursionError] at a new frame of Python. *)
Definition frame_too_deep : string :=
  "maximum recursion depth exceeded"%string.

(** [raise_errmsg], with [depth] levels of the limit left.  The scanner
    builds the [JSONDecodeError] by calling the class, which is written in
    Python: the call, the frame of its [__init__] and a method call inside
    it take three levels, and with fewer left the [RecursionError] of the
    level that is missing is raised in place of the [JSONDecodeError]. *)
Definition raise_errmsg {A : Type} (depth : nat) : scan A :=
  match depth with
  | O => TooDeep call_too_deep
  | S O => TooDeep frame_too_deep
  | S (S O) => TooDeep call_too_deep
  | S (S (S _)) => Rejected
  end.

(** [_parse_constant]: the scanner calls [parse_constant], which takes one
    level of the limit. *)
Definition parse_constant (depth : nat) (v : pyobj) (rest : pystr)
  : scan pyobj :=
  match depth with
  | O => TooDeep call_too_deep
  | S _ => Scanned v rest
  end.

(** *** Values *)

(** The values that are neither strings nor containers, in the order the
    scanner tries them: [null], [true], [false], a number, [NaN],
    [Infinity], [-Infinity].  A text that starts none of them ends the scan
    with [StopIteration], which [raw_decode] turns into [JSONDecodeError]
    outside the scanner, with the whole limit left. *)
Definition scan_atom (depth : nat) (s : pystr) : scan pyobj :=
  match strip_prefix (ustr "null") s with
  | Some r => Scanned PyNone r
  | None =>
  match strip_prefix (ustr "true") s with
  | Some r => Scanned (PyBool true) r
  | None =>
  match strip_prefix (ustr "false") s with
  | Some r => Scanned (PyBool false) r
  | None =>
  match match_number s with
  | Scanned v r => Scanned v r
  | Raised msg => Raised msg
  | TooDeep msg => TooDeep msg
  | Starved => Starved
  | Rejected =>
  match strip_prefix (ustr "NaN") s with
  | Some r => parse_constant depth (PyFloat Float.nan) r
  | None =>
  match strip_prefix (ustr "Infinity") s with
  | Some r => parse_constant depth (PyFloat (Float.inf false)) r
  | None =>
  match strip_prefix (ustr "-Infinity") s with
  | Some r => parse_constant depth (PyFloat (Float.inf true)) r
  | None => Rejected
  end end end end end end end.

(** [scan_once], with [JSONArray] and [JSONObject] from their first element
    on.  [array_items] starts at an element and holds the values read so
    far; [object_items] starts after the opening quote of a member name
    and holds the dict built so far.  [depth] is the number of levels of
    the recursion limit that are left: the scanner takes one at every
    opening brace and bracket, before it reads anything of the container,
    and gives it back when the container is closed.  A value that is
    missing ends the scan with [StopIteration] ([Rejected]); every other
    fault goes through [raise_errmsg].  [fuel] bounds the calls of the
    model. *)
Fixpoint scan_once (fuel depth : nat) (s : pystr) {struct fuel} : scan pyobj :=
  match fuel with
  | O => Starved
  | S fuel' =>
      match s with
      | [] => Rejected
      | c :: r =>
          if c =? 34 then
            match scanstring r with
            | Some (content, rest) => Scanned (PyStr content) rest
            | None => raise_errmsg depth
            end
          else if c =? 123 then
            match depth with
            | O => TooDeep (too_deep "object")
            | S depth' =>
                match skip_ws r with
                | c1 :: r1 =>
                    if c1 =? 125 then Scanned (PyDict []) r1
                    else if c1 =? 34 then object_items fuel' depth' r1 []
                    else raise_errmsg depth'
                | [] => raise_errmsg depth'
                end
            end
          else if c =? 91 then
            match depth with
            | O => TooDeep (too_deep "array")
            | S depth' =>
                match skip_ws r with
                | c1 :: r1 =>
                    if c1 =? 93 then Scanned (PyList []) r1
                    else array_items fuel' depth' (c1 :: r1) []
                | [] => Rejected
                end
            end
          else scan_atom depth s
      end
  end

with array_items (fuel depth : nat) (s : pystr) (values : list pyobj)
       {struct fuel} : scan pyobj :=
  match fuel with
  | O => Starved
  | S fuel' =>
      match scan_once fuel' depth s with
      | Scanned v r =>
          match skip_ws r with
          | c :: r1 =>
              if c =? 93 then Scanned (PyList (values ++ [v])) r1
              else if c =? 44
                   then array_items fuel' depth (skip_ws r1) (values ++ [v])
                   else raise_errmsg depth
          | [] => raise_errmsg depth
          end
      | Rejected => Rejected
      | Raised msg => Raised msg
      | TooDeep msg => TooDeep msg
      | Starved => Starved
      end
  end

with object_items (fuel depth : nat) (s : pystr) (d : list (pystr * pyobj))
       {struct fuel} : scan pyobj :=
  match fuel with
  | O => Starved
  | S fuel' =>
      match scanstring s with
      | None => raise_errmsg depth
      | Some (key, r) =>
          match skip_ws r with
          | c :: r1 =>
              if c =? 58 then
                match scan_once fuel' depth (skip_ws r1) with
                | Scanned v r2 =>
                    match skip_ws r2 with
                    | c2 :: r3 =>
                        if c2 =? 125 then Scanned (PyDict (dict_set d key v)) r3
                        else if c2 =? 44 then
                          match skip_ws r3 with
                          | c3 :: r4 =>
                              if c3 =? 34
                              then object_items fuel' depth r4 (dict_set d key v)
                              else raise_errmsg depth
                          | [] => raise_errmsg depth
                          end
                        else raise_errmsg depth
                    | [] => raise_errmsg depth
                    end
                | Rejected => Rejected
                | Raised msg => Raised msg
                | TooDeep msg => TooDeep msg
                | Starved => Starved
                end
              else raise_errmsg depth
          | [] => raise_errmsg depth
          end
      end
  end.

(** The budget that always suffices: every nested call has read at least
    one character (see [scan_once_never_starves]). *)
Definition budget (s : pystr) : nat := 2 * List.length s + 1.

(** What [json.loads] does with a document: it returns a value, raises
    [JSONDecodeError], raises the [ValueError] of [int], or raises
    [RecursionError]. *)
Inductive loaded : Type :=
| Value (v : pyobj)
| DecodeError
| IntError (msg : string)
| DepthError (msg : string).

(** [JSONDecoder.decode]: one value between optional whitespace, and nothing
    after it. *)
Definition decode (s : pystr) : loaded :=
  match scan_once (budget s) nesting_limit (skip_ws s) with
  | Scanned v rest =>
      match skip_ws rest with
      | [] => Value v
      | _ :: _ => DecodeError
      end
  | Rejected => DecodeError
  | Raised msg => IntError msg
  | TooDeep msg => DepthError msg
  | Starved => DecodeError
  end.

(** [json.loads(s)] for a [str].  A leading byte order mark is refused
    before decoding. *)
Definition loads (s : pystr) : loaded :=
  match s with
  | c :: _ => if c =? 65279 then DecodeError else decode s
  | [] => decode s
  end.

End Decoder.

Definition json_loads : pystr -> Decoder.loaded := Decoder.loads.

(** ** The interpreter: state, exceptions, statements *)

(** What one run of the script can see and change: the argument list, the
    text written so far on the two streams, and, as a record of the calls of
    [json.loads], the documents handed to the decoder. *)
Record world : Type := World {
  sys_argv : list pystr;
  stdout : string;
  stderr : string;
  decoded : list pystr
}.

(** The exceptions of the program.  [SystemExit] derives from
    [BaseException] only; the others derive from [Exception], and
    [JSONDecodeError] from [ValueError].  The last four carry [str(e)]. *)
Inductive exn : Type :=
| SystemExit (code : Z)
| JSONDecodeError
| ValueError (msg : string)
| AttributeError (msg : string)
| IndexError (msg : string)
| RecursionError (msg : string).

Inductive result (A : Type) : Type :=
| Return (a : A)
| Raise (e : exn).

Arguments Return {A} a.
Arguments Raise {A} e.

(** A statement or an expression: from a state to a value or a raised
    exception, and the state it leaves. *)
Definition M (A : Type) : Type := world -> result A * world.

Definition ret {A} (a : A) : M A := fun w => (Return a, w).

Definition bind {A B} (c : M A) (k : A -> M B) : M B :=
  fun w =>
    match c w with
    | (Return a, w') => k a w'
    | (Raise e, w') => (Raise e, w')
    end.

Definition raise {A} (e : exn) : M A := fun w => (Raise e, w).

(** [try: body  except ...: handler e] where [handler] re-raises what no
    clause catches. *)
Definition try_except {A} (body : M A) (handler : exn -> M A) : M A :=
  fun w =>
    match body w with
    | (Return a, w') => (Return a, w')
    | (Raise e, w') => handler e w'
    end.

Declare Scope py_scope.
Delimit Scope py_scope with py.
Notation "x <- c ;; k" := (bind c (fun x => k))
  (at level 61, c at next level, right associativity) : py_scope.
Notation "c ;; k" := (bind c (fun _ => k))
  (at level 61, right associativity) : py_scope.
Notation "'when' b 'then' c" := (if b then c else ret tt)
  (at level 60, b at level 9, c at level 9) : py_scope.

Local Open Scope py_scope.
Local Open Scope string_scope.

Definition newline : string := String (ascii_of_nat 10) "".

Inductive stream : Type := sys_stdout | sys_stderr.

(** [print(text, file=...)]: the text and a newline, appended to the stream. *)
Definition print (text : string) (file : stream) : M unit :=
  fun w =>
    (Return tt,
     match file with
     | sys_stdout =>
         World (sys_argv w) (stdout w ++ text ++ newline) (stderr w) (decoded w)
     | sys_stderr =>
         World (sys_argv w) (stdout w) (stderr w ++ text ++ newline) (decoded w)
     end).

(** [sys.exit(code)] *)
Definition sys_exit {A} (code : Z) : M A := raise (SystemExit code).

(** [sys.argv] *)
Definition argv : M (list pystr) := fun w => (Return (sys_argv w), w).

(** [l[i]] *)
Definition item (l : list pystr) (i : nat) : M pystr :=
  match nth_error l i with
  | Some x => ret x
  | None => raise (IndexError "list index out of range")
  end.

(** [json.loads(s)]; the call is recorded. *)
Definition loads (s : pystr) : M pyobj :=
  fun w =>
    let w' := World (sys_argv w) (stdout w) (stderr w) (decoded w ++ [s]) in
    match json_loads s with
    | Decoder.Value v => (Return v, w')
    | Decoder.DecodeError => (Raise JSONDecodeError, w')
    | Decoder.IntError msg => (Raise (ValueError msg), w')
    | Decoder.DepthError msg => (Raise (RecursionError msg), w')
    end.

(** [obj.get(key, default)]: the method of [dict]; no other value that the
    decoder returns has an attribute [get]. *)
Definition get (obj : pyobj) (key : pystr) (default : pyobj) : M pyobj :=
  match obj with
  | PyDict d =>
      ret (match dict_get d key with Some v => v | None => default end)
  | _ =>
      raise (AttributeError
               ("'" ++ type_name obj ++ "' object has no attribute 'get'"))
  end.

(** ** The program *)

Definition error_object (msg : string) : pyobj :=
  PyDict [(ustr "error", PyStr (ustr msg))].

(** The body of the [try] statement of [main]. *)
Definition try_block : M unit :=
  av <- argv ;;
  arg <- item av 1 ;;
  args <- loads arg ;;
  query <- get args (ustr "query") (PyStr (ustr "")) ;;
  when (negb (truthy query)) then
    (print (json_dumps (error_object "Empty search query")) sys_stderr ;;
     sys_exit 1) ;;
  let result :=
    PyDict [(ustr "query", query);
            (ustr "results", PyList []);
            (ustr "message",
             PyStr (ustr "Web search functionality not yet implemented"))] in
  print (json_dumps result) sys_stdout.

(** The two [except] clauses: [json.JSONDecodeError] first, then
    [Exception as e]; [SystemExit] is neither and goes on. *)
Definition except_clauses (e : exn) : M unit :=
  match e with
  | JSONDecodeError =>
      print (json_dumps (error_object "Invalid JSON arguments")) sys_stderr ;;
      sys_exit 1
  | ValueError msg | AttributeError msg | IndexError msg
  | RecursionError msg =>
      print (json_dumps (error_object msg)) sys_stderr ;;
      sys_exit 1
  | SystemExit code => raise (SystemExit code)
  end.

Definition main : M unit :=
  av <- argv ;;
  when (List.length av <? 2)%nat then
    (print (json_dumps (error_object "No search query provided")) sys_stderr ;;
     sys_exit 1) ;;
  try_except try_block except_clauses.

(** ** One invocation *)

(** How the process ends: with an exit code, or on an exception nothing
    caught, which the interpreter reports with a traceback. *)
Inductive status : Type :=
| Exit (code : Z)
| Traceback (e : exn).

(** The state a process starts in. *)
Definition start (args : list pystr) : world := World args "" "" [].

(** [if __name__ == "__main__": main()] from a given state: falling off the
    end of the script is exit code 0, [SystemExit] gives its own code. *)
Definition script (w : world) : status * world :=
  match main w with
  | (Return _, w') => (Exit 0, w')
  | (Raise (SystemExit code), w') => (Exit code, w')
  | (Raise e, w') => (Traceback e, w')
  end.

Definition run (args : list pystr) : status * world := script (start args).

(** ** Text of the streams and of the examples *)

(** What [print(json.dumps(v), ...)] writes. *)
Definition line (v : pyobj) : string := json_dumps v ++ newline.

(** Text written with a backquote for each double quote: the documents and
    the expected output of the examples. *)
Definition quoted (s : string) : string :=
  string_of_list_ascii
    (map (fun c => if Ascii.eqb c "`" then dquote else c)
         (list_ascii_of_string s)).

Definition document (s : string) : pystr := ustr (quoted s).

(** The [query] field of a decoded document; a value that is not an object
    has none. *)
Definition query_field (v : pyobj) : option pyobj :=
  match v with
  | PyDict d => dict_get d (ustr "query")
  | _ => None
  end.

(** ** The grammar of JSON

    Two conditions that RFC 8259 puts on a JSON text, which is one value
    between optional whitespace: its first character begins a value (a
    brace, a bracket, a quotation mark, a minus sign, a digit, or the first
    letter of [true], [false] or [null]), and its last character ends one
    (a closing brace or bracket, a quotation mark, a digit, or the last
    letter of a literal name).  A text that fails either is not valid
    JSON. *)

Module RFC8259.

Local Open Scope N_scope.

Definition ws (c : N) : bool :=
  (c =? 32) || (c =? 9) || (c =? 10) || (c =? 13).

Fixpoint trim (s : pystr) : pystr :=
  match s with
  | c :: r => if ws c then trim r else s
  | [] => []
  end.

Definition digit (c : N) : bool := (48 <=? c) && (c <=? 57).

Definition begins_value (c : N) : bool :=
  (c =? 123) || (c =? 91) || (c =? 34) || (c =? 45) || digit c
  || (c =? 116) || (c =? 102) || (c =? 110).

Definition ends_value (c : N) : bool :=
  (c =? 125) || (c =? 93) || (c =? 34) || digit c
  || (c =? 101) || (c =? 108).

Definition not_json (s : pystr) : bool :=
  match trim s, trim (rev s) with
  | first :: _, last :: _ => negb (begins_value first && ends_value last)
  | _, _ => true
  end.

End RFC8259.

(** ** Notions for the properties of the output

    The result object of [main], what the encoder writes between the quotes
    of a string, the strings that survive a round trip, printable ASCII
    text, and the auxiliary notions of the proofs. *)

(** The [result] of [main] for a query. *)
Definition result_object (query : pyobj) : pyobj :=
  PyDict [(ustr "query", query);
          (ustr "results", PyList []);
          (ustr "message",
           PyStr (ustr "Web search functionality not yet implemented"))].

(** The characters that [encode_basestring_ascii q] writes between the two
    quotes. *)
Definition encoded (q : pystr) : pystr :=
  ustr (String.concat "" (map Encoder.escape_char q)).

(** A code point of Unicode, below [0x110000]. *)
Definition scalar (c : N) : bool := (c <? 1114112)%N.

(** No high surrogate stands directly before a low surrogate. *)
Fixpoint no_surrogate_pair (q : pystr) : bool :=
  match q with
  | c :: q' =>
      match q' with
      | c' :: _ =>
          negb (Decoder.is_high_surrogate c && Decoder.is_low_surrogate c')
      | [] => true
      end && no_surrogate_pair q'
  | [] => true
  end.

(** A string the decoder reads back as it was written: code points of
    Unicode, and no surrogate pair spelled as two characters (the encoder
    writes each as [\uXXXX], and the decoder joins the two). *)
Definition well_formed (q : pystr) : bool :=
  forallb scalar q && no_surrogate_pair q.

(** Printable ASCII: the characters from the space to the tilde. *)
Definition is_printable (c : ascii) : bool :=
  ((32 <=? ord c) && (ord c <=? 126))%N.

Definition printable (s : string) : bool :=
  forallb is_printable (list_ascii_of_string s).

Definition printable_list (l : list ascii) : bool := forallb is_printable l.

(** The code point of a hexadecimal digit of the encoder. *)
Definition hex_code (n : N) : N := ord (Encoder.hex_digit n).

(** The two halves of the surrogate pair that the encoder writes for a
    character above the basic plane. *)
Definition high_of (c : N) : N :=
  N.lor 55296 (N.land (N.shiftr (c - 65536) 10) 1023).

Definition low_of (c : N) : N := N.lor 56320 (N.land (c - 65536) 1023).

(** The text [T] does not start with the escape of a low surrogate. *)
Definition not_low_escape (T : pystr) : Prop :=
  match T with
  | b :: u :: l1 :: l2 :: l3 :: l4 :: _ =>
      b = 92%N -> u = 117%N ->
      exists v, Decoder.hex4 l1 l2 l3 l4 = Some v /\
                Decoder.is_low_surrogate v = false
  | _ => True
  end.

(** The description of the [ValueError] of [int]. *)
Definition limit_message (msg : string) : Prop :=
  exists tail : string, msg = "Exceeds the limit (" ++ tail.

(** The descriptions of the [RecursionError] of the decoder. *)
Definition depth_message (msg : string) : Prop :=
  msg = Decoder.too_deep "array" \/
  msg = Decoder.too_deep "object" \/
  msg = Decoder.call_too_deep \/
  msg = Decoder.frame_too_deep.

(** How many containers of a value stand one inside the other: 0 for a
    scalar, 1 for an empty list or dict. *)
Fixpoint nesting (v : pyobj) : nat :=
  match v with
  | PyList l => S (fold_right (fun x m => Nat.max (nesting x) m) O l)
  | PyDict d =>
      S (fold_right (fun (kv : pystr * pyobj) m =>
                       Nat.max (let (_, x) := kv in nesting x) m)
                    O d)
  | _ => O
  end.

(** Induction on values, through lists and dicts. *)
Definition pyobj_induction (P : pyobj -> Prop)
    (HNone : P PyNone)
    (HBool : forall b, P (PyBool b))
    (HInt : forall n, P (PyInt n))
    (HFloat : forall x, P (PyFloat x))
    (HStr : forall s, P (PyStr s))
    (HList : forall l, Forall P l -> P (PyList l))
    (HDict : forall d, Forall (fun kv => P (snd kv)) d -> P (PyDict d))
  : forall v, P v :=
  fix F (v : pyobj) : P v :=
    match v with
    | PyNone => HNone
    | PyBool b => HBool b
    | PyInt n => HInt n
    | PyFloat x => HFloat x
    | PyStr s => HStr s
    | PyList l =>
        HList l ((fix G (l : list pyobj) : Forall P l :=
                    match l with
                    | [] => Forall_nil P
                    | x :: r => Forall_cons x (F x) (G r)
                    end) l)
    | PyDict d =>
        HDict d ((fix G (d : list (pystr * pyobj))
                    : Forall (fun kv => P (snd kv)) d :=
                    match d with
                    | [] => Forall_nil _
                    | kv :: r => Forall_cons kv (F (snd kv)) (G r)
                    end) d)
    end.

(** * Properties *)

(** ** The decoder always answers

    Every nested call of the scanner starts after at least one character
    that its caller has read, so the budget of [Decoder.decode] never runs
    out: [DecodeError] from [json_loads] is always a rejected document. *)

Module DecoderFacts.

Import Decoder.

Local Open Scope nat_scope.

Ltac break_match_in H :=
  match type of H with
  | context [match ?x with _ => _ end] => destruct x eqn:?
  end.

Lemma skip_ws_length (s : pystr) : List.length (skip_ws s) <= List.length s.
Proof.
  induction s as [|c r IH]; simpl; [lia|].
  destruct (is_ws c); simpl; lia.
Qed.

Lemma skip_ws_cons_length (s : pystr) (c : N) (r : pystr) :
  skip_ws s = c :: r -> List.length r < List.length s.
Proof.
  intros H. pose proof (skip_ws_length s) as L. rewrite H in L. simpl in L. lia.
Qed.

Lemma strip_prefix_length (p s r : pystr) :
  strip_prefix p s = Some r -> List.length s = List.length p + List.length r.
Proof.
  revert s; induction p as [|a p IH]; intros [|b s] H; simpl in *;
    try congruence.
  - inversion H; reflexivity.
  - inversion H; reflexivity.
  - destruct (a =? b)%N; [|discriminate]. rewrite (IH _ H). reflexivity.
Qed.

Lemma push_inv (c : N) (x : option (pystr * pystr)) (content rest : pystr) :
  push c x = Some (content, rest) ->
  exists content', x = Some (content', rest).
Proof.
  destruct x as [[c' r']|]; simpl; intros H; inversion H; eauto.
Qed.

Lemma scanstring_length_bounded (n : nat) :
  forall s content rest,
    List.length s <= n ->
    scanstring s = Some (content, rest) ->
    List.length rest < List.length s.
Proof.
  induction n as [|n IH]; intros s content rest Hn H.
  - destruct s; simpl in *; [discriminate | lia].
  - destruct s as [|c r]; [discriminate|].
    simpl in H. simpl in Hn.
    repeat break_match_in H; try discriminate;
      try (inversion H; subst; simpl; lia);
      apply push_inv in H; destruct H as [content' H];
      apply IH in H; simpl in *; lia.
Qed.

Lemma scanstring_length (s content rest : pystr) :
  scanstring s = Some (content, rest) -> List.length rest < List.length s.
Proof. apply (scanstring_length_bounded (List.length s)); lia. Qed.

Lemma digits_length (s : pystr) :
  forall acc count n count' rest,
    digits s acc count = (n, count', rest) ->
    List.length rest + count' = List.length s + count /\ count <= count'.
Proof.
  induction s as [|c r IH]; intros acc count n count' rest H; simpl in H.
  - inversion H; subst; simpl; lia.
  - destruct (is_digit c).
    + apply IH in H. simpl. lia.
    + inversion H; subst; simpl; lia.
Qed.

Lemma integer_part_length (s : pystr) (n : N) (count : nat) (rest : pystr) :
  integer_part s = Some (n, count, rest) -> List.length rest < List.length s.
Proof.
  destruct s as [|c r]; simpl; [discriminate|].
  destruct (c =? 48)%N; [intros H; inversion H; subst; lia|].
  destruct (is_digit c) eqn:D; [|discriminate].
  intros H; inversion H as [E].
  apply digits_length in E. simpl. lia.
Qed.

Lemma fraction_part_length (s : pystr) (n : N) (count : nat) (rest : pystr) :
  fraction_part s = Some (n, count, rest) -> List.length rest < List.length s.
Proof.
  destruct s as [|c r]; simpl; [discriminate|].
  destruct (c =? 46)%N; [|discriminate].
  destruct (digits r 0%N 0) as [[m k] rest'] eqn:E.
  apply digits_length in E.
  destruct k; intros H; inversion H; subst. lia.
Qed.

Lemma exponent_part_length (s : pystr) (x : Z) (rest : pystr) :
  exponent_part s = Some (x, rest) -> List.length rest < List.length s.
Proof.
  destruct s as [|c r]; simpl; [discriminate|].
  destruct (_ || _); [|discriminate].
  destruct (match r with [] => _ | _ => _ end) as [neg r1] eqn:Sg.
  assert (L : List.length r1 <= List.length r).
  { destruct r as [|sg r']; [inversion Sg; subst; lia|].
    destruct (sg =? 45)%N; [inversion Sg; subst; simpl; lia|].
    destruct (sg =? 43)%N; inversion Sg; subst; simpl; lia. }
  destruct (digits r1 0%N 0) as [[m k] rest'] eqn:E.
  apply digits_length in E.
  destruct k; intros H; inversion H; subst. lia.
Qed.

Lemma match_number_length (s : pystr) (v : pyobj) (rest : pystr) :
  match_number s = Scanned v rest -> List.length rest < List.length s.
Proof.
  unfold match_number.
  destruct (match s with [] => _ | _ => _ end) as [neg s1] eqn:Sg.
  assert (L1 : List.length s1 <= List.length s).
  { destruct s as [|c r]; [inversion Sg; subst; lia|].
    destruct (c =? 45)%N; inversion Sg; subst; simpl; lia. }
  destruct (integer_part s1) as [[[i di] s2]|] eqn:I; [|discriminate].
  apply integer_part_length in I.
  destruct (fraction_part s2) as [[[f count] r3]|] eqn:F.
  - apply fraction_part_length in F.
    destruct (exponent_part r3) as [[x r4]|] eqn:X.
    + apply exponent_part_length in X. intros H; inversion H; subst. lia.
    + intros H; inversion H; subst. lia.
  - destruct (exponent_part s2) as [[x r4]|] eqn:X.
    + apply exponent_part_length in X. intros H; inversion H; subst. lia.
    + destruct (parse_int neg i di); intros H; inversion H; subst. lia.
Qed.

Lemma match_number_fed (s : pystr) : match_number s <> Starved.
Proof.
  unfold match_number.
  destruct (match s with [] => _ | _ => _ end) as [neg s1].
  destruct (integer_part s1) as [[[i di] s2]|]; [|discriminate].
  destruct (match fraction_part s2 with Some _ => _ | None => _ end)
    as [frac s3].
  destruct (match exponent_part s3 with Some _ => _ | None => _ end)
    as [exp s4].
  destruct frac as [[f count]|]; [discriminate|].
  destruct exp; [discriminate|].
  destruct (parse_int neg i di); discriminate.
Qed.

Lemma raise_errmsg_scanned (depth : nat) (v : pyobj) (rest : pystr) :
  raise_errmsg depth <> Scanned v rest.
Proof. destruct depth as [|[|[|depth]]]; discriminate. Qed.

Lemma raise_errmsg_fed (depth : nat) : @raise_errmsg pyobj depth <> Starved.
Proof. destruct depth as [|[|[|depth]]]; discriminate. Qed.

Lemma raise_errmsg_raised (depth : nat) (msg : string) :
  @raise_errmsg pyobj depth <> Raised msg.
Proof. destruct depth as [|[|[|depth]]]; discriminate. Qed.

Lemma parse_constant_scanned
      (depth : nat) (v : pyobj) (r : pystr) (v' : pyobj) (r' : pystr) :
  parse_constant depth v r = Scanned v' r' -> v' = v /\ r' = r.
Proof. destruct depth; simpl; intros H; inversion H; auto. Qed.

Lemma parse_constant_fed (depth : nat) (v : pyobj) (r : pystr) :
  parse_constant depth v r <> Starved.
Proof. destruct depth; discriminate. Qed.

Lemma parse_constant_raised
      (depth : nat) (v : pyobj) (r : pystr) (msg : string) :
  parse_constant depth v r <> Raised msg.
Proof. destruct depth; discriminate. Qed.

Ltac no_errmsg H :=
  solve [ discriminate H
        | exfalso; revert H; apply raise_errmsg_scanned ].

Lemma scan_atom_length (depth : nat) (s : pystr) (v : pyobj) (rest : pystr) :
  scan_atom depth s = Scanned v rest -> List.length rest < List.length s.
Proof.
  unfold scan_atom. intros H.
  repeat break_match_in H; try discriminate;
    try (apply parse_constant_scanned in H; destruct H as [_ H]);
    try (inversion H; subst);
    match goal with
    | E : strip_prefix _ s = Some _ |- _ =>
        apply strip_prefix_length in E; simpl in E; lia
    | E : match_number s = Scanned _ _ |- _ =>
        apply match_number_length in E; exact E
    end.
Qed.

Lemma scan_atom_fed (depth : nat) (s : pystr) : scan_atom depth s <> Starved.
Proof.
  unfold scan_atom. pose proof (match_number_fed s) as F.
  repeat match goal with
         | |- context [match ?x with _ => _ end] => destruct x
         end; try congruence; apply parse_constant_fed.
Qed.

(** A scanned value has used at least one character. *)
Lemma scan_shrinks (fuel : nat) :
  (forall depth s v rest,
      scan_once fuel depth s = Scanned v rest ->
      List.length rest < List.length s) /\
  (forall depth s values v rest,
      array_items fuel depth s values = Scanned v rest ->
      List.length rest < List.length s) /\
  (forall depth s d v rest,
      object_items fuel depth s d = Scanned v rest ->
      List.length rest < List.length s).
Proof.
  induction fuel as [|fuel [IHs [IHa IHo]]].
  - repeat split; intros; discriminate.
  - repeat split.
    + intros depth s v rest H. simpl in H.
      destruct s as [|c r]; [discriminate|].
      destruct (c =? 34)%N.
      { destruct (scanstring r) as [[content rest']|] eqn:E; [|no_errmsg H].
        apply scanstring_length in E. inversion H; subst. simpl; lia. }
      destruct (c =? 123)%N.
      { destruct depth as [|depth]; [discriminate|].
        destruct (skip_ws r) as [|c1 r1] eqn:W; [no_errmsg H|].
        apply skip_ws_cons_length in W.
        destruct (c1 =? 125)%N; [inversion H; subst; simpl; lia|].
        destruct (c1 =? 34)%N; [|no_errmsg H].
        apply IHo in H. simpl; lia. }
      destruct (c =? 91)%N.
      { destruct depth as [|depth]; [discriminate|].
        destruct (skip_ws r) as [|c1 r1] eqn:W; [discriminate|].
        apply skip_ws_cons_length in W.
        destruct (c1 =? 93)%N; [inversion H; subst; simpl; lia|].
        apply IHa in H. simpl in *; lia. }
      apply scan_atom_length in H. exact H.
    + intros depth s values v rest H. simpl in H.
      destruct (scan_once fuel depth s) as [v1 r| | | |] eqn:E;
        try discriminate.
      apply IHs in E.
      destruct (skip_ws r) as [|c r1] eqn:W; [no_errmsg H|].
      apply skip_ws_cons_length in W.
      destruct (c =? 93)%N; [inversion H; subst; lia|].
      destruct (c =? 44)%N; [|no_errmsg H].
      apply IHa in H. pose proof (skip_ws_length r1). lia.
    + intros depth s d v rest H. simpl in H.
      destruct (scanstring s) as [[key r]|] eqn:K; [|no_errmsg H].
      apply scanstring_length in K.
      destruct (skip_ws r) as [|c r1] eqn:W; [no_errmsg H|].
      apply skip_ws_cons_length in W.
      destruct (c =? 58)%N; [|no_errmsg H].
      destruct (scan_once fuel depth (skip_ws r1)) as [v1 r2| | | |] eqn:E;
        try discriminate.
      apply IHs in E. pose proof (skip_ws_length r1).
      destruct (skip_ws r2) as [|c2 r3] eqn:W2; [no_errmsg H|].
      apply skip_ws_cons_length in W2.
      destruct (c2 =? 125)%N; [inversion H; subst; lia|].
      destruct (c2 =? 44)%N; [|no_errmsg H].
      destruct (skip_ws r3) as [|c3 r4] eqn:W3; [no_errmsg H|].
      apply skip_ws_cons_length in W3.
      destruct (c3 =? 34)%N; [|no_errmsg H].
      apply IHo in H. lia.
Qed.

Ltac fed := solve [ discriminate | apply raise_errmsg_fed ].

Lemma enough_fuel (fuel : nat) :
  (forall depth s,
      2 * List.length s + 1 <= fuel -> scan_once fuel depth s <> Starved) /\
  (forall depth s values,
      2 * List.length s + 2 <= fuel ->
      array_items fuel depth s values <> Starved) /\
  (forall depth s d,
      2 * List.length s + 2 <= fuel ->
      object_items fuel depth s d <> Starved).
Proof.
  induction fuel as [|fuel [IHs [IHa IHo]]].
  - repeat split; intros; lia.
  - repeat split.
    + intros depth s L. simpl.
      destruct s as [|c r]; [discriminate|]. simpl in L.
      destruct (c =? 34)%N.
      { destruct (scanstring r) as [[content rest']|]; fed. }
      destruct (c =? 123)%N.
      { destruct depth as [|depth]; [discriminate|].
        destruct (skip_ws r) as [|c1 r1] eqn:W; [fed|].
        apply skip_ws_cons_length in W.
        destruct (c1 =? 125)%N; [discriminate|].
        destruct (c1 =? 34)%N; [|fed].
        apply IHo. lia. }
      destruct (c =? 91)%N.
      { destruct depth as [|depth]; [discriminate|].
        destruct (skip_ws r) as [|c1 r1] eqn:W; [discriminate|].
        apply skip_ws_cons_length in W.
        destruct (c1 =? 93)%N; [discriminate|].
        apply IHa. simpl. lia. }
      apply scan_atom_fed.
    + intros depth s values L. simpl.
      destruct (scan_once fuel depth s) as [v1 r| | | |] eqn:E.
      * apply (proj1 (scan_shrinks fuel)) in E.
        destruct (skip_ws r) as [|c r1] eqn:W; [fed|].
        apply skip_ws_cons_length in W.
        destruct (c =? 93)%N; [discriminate|].
        destruct (c =? 44)%N; [|fed].
        apply IHa. pose proof (skip_ws_length r1). lia.
      * discriminate.
      * discriminate.
      * discriminate.
      * exfalso. revert E. apply IHs. lia.
    + intros depth s d L. simpl.
      destruct (scanstring s) as [[key r]|] eqn:K; [|fed].
      apply scanstring_length in K.
      destruct (skip_ws r) as [|c r1] eqn:W; [fed|].
      apply skip_ws_cons_length in W.
      destruct (c =? 58)%N; [|fed].
      pose proof (skip_ws_length r1).
      destruct (scan_once fuel depth (skip_ws r1)) as [v1 r2| | | |] eqn:E.
      * apply (proj1 (scan_shrinks fuel)) in E.
        destruct (skip_ws r2) as [|c2 r3] eqn:W2; [fed|].
        apply skip_ws_cons_length in W2.
        destruct (c2 =? 125)%N; [discriminate|].
        destruct (c2 =? 44)%N; [|fed].
        destruct (skip_ws r3) as [|c3 r4] eqn:W3; [fed|].
        apply skip_ws_cons_length in W3.
        destruct (c3 =? 34)%N; [|fed].
        apply IHo. lia.
      * discriminate.
      * discriminate.
      * discriminate.
      * exfalso. revert E. apply IHs. lia.
Qed.

(** The scanner never stops for lack of budget inside [decode], whatever
    is left of the recursion limit. *)
Theorem scan_once_never_starves (depth : nat) (s : pystr) :
  scan_once (budget s) depth (skip_ws s) <> Starved.
Proof.
  apply (proj1 (enough_fuel (budget s))).
  unfold budget. pose proof (skip_ws_length s). lia.
Qed.

(** ** The nesting of a decoded value

    A value that the scanner returns nests no deeper than the recursion
    limit let it go. *)

Lemma nesting_list (l : list pyobj) (n : nat) :
  Forall (fun x => nesting x <= n) l -> nesting (PyList l) <= S n.
Proof.
  intros F. cbn [nesting]. apply le_n_S.
  induction F as [|x l Hx F IH]; simpl; lia.
Qed.

Lemma nesting_dict (d : list (pystr * pyobj)) (n : nat) :
  Forall (fun kv => nesting (snd kv) <= n) d -> nesting (PyDict d) <= S n.
Proof.
  intros F. cbn [nesting]. apply le_n_S.
  induction F as [|[k x] d Hx F IH]; simpl in *; lia.
Qed.

Lemma nesting_member (d : list (pystr * pyobj)) (key : pystr) (v : pyobj) :
  dict_get d key = Some v -> S (nesting v) <= nesting (PyDict d).
Proof.
  cbn [nesting]. intros G. apply le_n_S.
  induction d as [|[k x] d IH]; simpl in *; [discriminate|].
  destruct (str_eqb k key).
  - inversion G; subst. lia.
  - apply IH in G. lia.
Qed.

Lemma dict_set_nesting
      (d : list (pystr * pyobj)) (key : pystr) (v : pyobj) (n : nat) :
  Forall (fun kv => nesting (snd kv) <= n) d ->
  nesting v <= n ->
  Forall (fun kv => nesting (snd kv) <= n) (dict_set d key v).
Proof.
  intros F V. induction F as [|[k x] d Hx F IH]; simpl.
  - constructor; [exact V | constructor].
  - destruct (str_eqb k key); constructor; assumption.
Qed.

Lemma match_number_nesting (s : pystr) (v : pyobj) (rest : pystr) :
  match_number s = Scanned v rest -> nesting v = 0.
Proof.
  unfold match_number, parse_int.
  destruct (match s with [] => _ | _ => _ end) as [neg s1].
  destruct (integer_part s1) as [[[i di] s2]|]; [|discriminate].
  destruct (match fraction_part s2 with Some _ => _ | None => _ end)
    as [frac s3].
  destruct (match exponent_part s3 with Some _ => _ | None => _ end)
    as [exp s4].
  destruct frac as [[f count]|];
    [intros H; inversion H; reflexivity|].
  destruct exp; [intros H; inversion H; reflexivity|].
  destruct (int_max_str_digits <? di)%nat; intros H; inversion H.
  reflexivity.
Qed.

Lemma scan_atom_nesting (depth : nat) (s : pystr) (v : pyobj) (rest : pystr) :
  scan_atom depth s = Scanned v rest -> nesting v = 0.
Proof.
  unfold scan_atom. intros H.
  repeat break_match_in H; try discriminate;
    try (apply parse_constant_scanned in H; destruct H as [H _]);
    try (inversion H; subst; try reflexivity);
    eauto using match_number_nesting.
Qed.

Lemma scan_nesting (fuel : nat) :
  (forall depth s v rest,
      scan_once fuel depth s = Scanned v rest -> nesting v <= depth) /\
  (forall depth s values v rest,
      array_items fuel depth s values = Scanned v rest ->
      Forall (fun x => nesting x <= depth) values ->
      nesting v <= S depth) /\
  (forall depth s d v rest,
      object_items fuel depth s d = Scanned v rest ->
      Forall (fun kv => nesting (snd kv) <= depth) d ->
      nesting v <= S depth).
Proof.
  induction fuel as [|fuel [IHs [IHa IHo]]].
  - repeat split; intros; discriminate.
  - repeat split.
    + intros depth s v rest H. simpl in H.
      destruct s as [|c r]; [discriminate|].
      destruct (c =? 34)%N.
      { destruct (scanstring r) as [[content rest']|]; [|no_errmsg H].
        inversion H; subst. simpl; lia. }
      destruct (c =? 123)%N.
      { destruct depth as [|depth]; [discriminate|].
        destruct (skip_ws r) as [|c1 r1]; [no_errmsg H|].
        destruct (c1 =? 125)%N; [inversion H; subst; simpl; lia|].
        destruct (c1 =? 34)%N; [|no_errmsg H].
        apply IHo in H; [exact H | constructor]. }
      destruct (c =? 91)%N.
      { destruct depth as [|depth]; [discriminate|].
        destruct (skip_ws r) as [|c1 r1]; [discriminate|].
        destruct (c1 =? 93)%N; [inversion H; subst; simpl; lia|].
        apply IHa in H; [exact H | constructor]. }
      apply scan_atom_nesting in H. lia.
    + intros depth s values v rest H F. simpl in H.
      destruct (scan_once fuel depth s) as [v1 r| | | |] eqn:E;
        try discriminate.
      apply IHs in E.
      assert (F' : Forall (fun x => nesting x <= depth) (values ++ [v1])).
      { apply Forall_app. split; [exact F | constructor; [exact E|constructor]]. }
      destruct (skip_ws r) as [|c r1]; [no_errmsg H|].
      destruct (c =? 93)%N.
      { inversion H; subst. apply nesting_list. exact F'. }
      destruct (c =? 44)%N; [|no_errmsg H].
      apply IHa in H; assumption.
    + intros depth s d v rest H F. simpl in H.
      destruct (scanstring s) as [[key r]|]; [|no_errmsg H].
      destruct (skip_ws r) as [|c r1]; [no_errmsg H|].
      destruct (c =? 58)%N; [|no_errmsg H].
      destruct (scan_once fuel depth (skip_ws r1)) as [v1 r2| | | |] eqn:E;
        try discriminate.
      apply IHs in E.
      pose proof (dict_set_nesting d key v1 depth F E) as F'.
      destruct (skip_ws r2) as [|c2 r3]; [no_errmsg H|].
      destruct (c2 =? 125)%N.
      { inversion H; subst. apply nesting_dict. exact F'. }
      destruct (c2 =? 44)%N; [|no_errmsg H].
      destruct (skip_ws r3) as [|c3 r4]; [no_errmsg H|].
      destruct (c3 =? 34)%N; [|no_errmsg H].
      apply IHo in H; assumption.
Qed.

(** [json.loads] returns no value nested deeper than [nesting_limit]. *)
Theorem loads_nesting (a : pystr) (v : pyobj) :
  json_loads a = Value v -> nesting v <= nesting_limit.
Proof.
  unfold json_loads, loads.
  assert (D : decode a = Value v -> nesting v <= nesting_limit).
  { unfold decode.
    destruct (scan_once (budget a) nesting_limit (skip_ws a)) eqn:E;
      try discriminate.
    destruct (skip_ws rest); [|discriminate].
    intros H. inversion H; subst.
    eapply (proj1 (scan_nesting _)). exact E. }
  destruct a as [|c r]; [exact D|].
  destruct (c =? 65279)%N; [discriminate | exact D].
Qed.

End DecoderFacts.

(** ** What one invocation does *)

Local Open Scope nat_scope.

Arguments json_dumps : simpl never.

Lemma string_app_empty (s : string) : s ++ "" = s.
Proof. induction s as [|c s IH]; simpl; [reflexivity | now rewrite IH]. Qed.

Lemma line_not_empty (v : pyobj) : line v <> "".
Proof.
  unfold line. destruct (json_dumps v); simpl; discriminate.
Qed.

(** The script from any state, path by path: the guard on the number of
    arguments, the decoder, the attribute [get], the truth value of the
    query. *)
Lemma script_cases (w : world) :
  script w =
  match nth_error (sys_argv w) 1 with
  | None =>
      (Exit 1,
       World (sys_argv w) (stdout w)
             (stderr w ++ line (error_object "No search query provided"))
             (decoded w))
  | Some a =>
      match json_loads a with
      | Decoder.DecodeError =>
          (Exit 1,
           World (sys_argv w) (stdout w)
                 (stderr w ++ line (error_object "Invalid JSON arguments"))
                 (decoded w ++ [a]))
      | Decoder.IntError msg | Decoder.DepthError msg =>
          (Exit 1,
           World (sys_argv w) (stdout w)
                 (stderr w ++ line (error_object msg))
                 (decoded w ++ [a]))
      | Decoder.Value (PyDict d) =>
          let query :=
            match dict_get d (ustr "query") with
            | Some v => v
            | None => PyStr (ustr "")
            end in
          if truthy query
          then (Exit 0,
                World (sys_argv w)
                      (stdout w ++
                       line (PyDict
                               [(ustr "query", query);
                                (ustr "results", PyList []);
                                (ustr "message",
                                 PyStr (ustr "Web search functionality not yet implemented"))]))
                      (stderr w) (decoded w ++ [a]))
          else (Exit 1,
                World (sys_argv w) (stdout w)
                      (stderr w ++ line (error_object "Empty search query"))
                      (decoded w ++ [a]))
      | Decoder.Value v =>
          (Exit 1,
           World (sys_argv w) (stdout w)
                 (stderr w ++
                  line (error_object
                          ("'" ++ type_name v ++ "' object has no attribute 'get'")))
                 (decoded w ++ [a]))
      end
  end.
Proof.
  destruct w as [args out err log].
  destruct args as [|prog [|a rest]]; try reflexivity.
  unfold script, main, try_block, bind, argv, try_except, item, loads. simpl.
  destruct (json_loads a) as [v| |msg|msg]; try reflexivity.
  destruct v; try reflexivity.
  unfold get, ret. simpl.
  destruct (truthy _); reflexivity.
Qed.

Lemma run_cases (args : list pystr) : run args = script (start args).
Proof. reflexivity. Qed.

Lemma short_argv (args : list pystr) :
  List.length args < 2 -> nth_error args 1 = None.
Proof.
  destruct args as [|prog [|arg rest]]; simpl; intros H; try reflexivity; lia.
Qed.

(** The script from any state: it ends with the status of [run args] and
    appends to the streams and to the record of decoder calls what
    [run args] writes. *)
Lemma script_appends
      (args : list pystr) (out err : string) (log : list pystr) :
  script (World args out err log) =
  (fst (run args),
   World args
         (out ++ stdout (snd (run args)))
         (err ++ stderr (snd (run args)))
         (log ++ decoded (snd (run args)))).
Proof.
  rewrite run_cases, !script_cases.
  unfold start. cbn [sys_argv stdout stderr decoded].
  destruct (nth_error args 1) as [a|];
    [destruct (json_loads a) as [v| |msg|msg];
     [destruct v; cbv zeta; try destruct (truthy _)| | |]|];
    cbn [fst snd stdout stderr decoded app append];
    rewrite ?string_app_empty, ?app_nil_r; reflexivity.
Qed.

(** The second [except] clause: an exception below [Exception] other than
    [JSONDecodeError] leaves its description in an error object on standard
    error and becomes [SystemExit(1)]. *)
Lemma except_Exception (body : M unit) (w w' : world)
      (e : exn) (msg : string) :
  body w = (Raise e, w') ->
  e = ValueError msg \/ e = AttributeError msg \/ e = IndexError msg \/
  e = RecursionError msg ->
  try_except body except_clauses w =
  (Raise (SystemExit 1),
   World (sys_argv w') (stdout w')
         (stderr w' ++ json_dumps (error_object msg) ++ newline)
         (decoded w')).
Proof.
  intros B [E|[E|[E|E]]]; subst e; unfold try_except; rewrite B;
    reflexivity.
Qed.

(** ** The claims *)

(** C1. When the first argument decodes to a JSON object whose [query] is a
    non-empty string [q], the program prints the object with [query] set to
    [q], [results] to the empty list and [message] to the placeholder text on
    standard output, writes nothing on standard error, and ends with exit
    code 0. *)
Theorem search_placeholder_result
        (prog arg : pystr) (rest : list pystr)
        (d : list (pystr * pyobj)) (q : pystr) :
  json_loads arg = Decoder.Value (PyDict d) ->
  dict_get d (ustr "query") = Some (PyStr q) ->
  q <> [] ->
  run (prog :: arg :: rest) =
  (Exit 0,
   World (prog :: arg :: rest)
         (json_dumps
            (PyDict [(ustr "query", PyStr q);
                     (ustr "results", PyList []);
                     (ustr "message",
                      PyStr (ustr "Web search functionality not yet implemented"))])
          ++ newline)
         ""
         [arg]).
Proof.
  intros L G Q. rewrite run_cases, script_cases. simpl.
  rewrite L, G. simpl.
  destruct q as [|c q]; [contradiction | reflexivity].
Qed.

Lemma search_placeholder_result_witness :
  run [ustr "search_web_py.py"; document "{`query`: `cats`}"] =
  (Exit 0,
   World [ustr "search_web_py.py"; document "{`query`: `cats`}"]
         (quoted "{`query`: `cats`, `results`: [], `message`: `Web search functionality not yet implemented`}"
          ++ newline)
         ""
         [document "{`query`: `cats`}"]).
Proof.
  rewrite (search_placeholder_result
             (ustr "search_web_py.py") (document "{`query`: `cats`}") []
             [(ustr "query", PyStr (ustr "cats"))] (ustr "cats")).
  - vm_compute. reflexivity.
  - vm_compute. reflexivity.
  - reflexivity.
  - discriminate.
Defined.

(** C2. When the first argument decodes to a JSON object in which [query] is
    missing or is the empty string, the program writes the error object
    [Empty search query] on standard error and ends with exit code 1. *)
Theorem empty_query_rejected
        (prog arg : pystr) (rest : list pystr) (d : list (pystr * pyobj)) :
  json_loads arg = Decoder.Value (PyDict d) ->
  dict_get d (ustr "query") = None \/
  dict_get d (ustr "query") = Some (PyStr []) ->
  run (prog :: arg :: rest) =
  (Exit 1,
   World (prog :: arg :: rest)
         ""
         (json_dumps (PyDict [(ustr "error", PyStr (ustr "Empty search query"))])
          ++ newline)
         [arg]).
Proof.
  intros L G. rewrite run_cases, script_cases. simpl.
  rewrite L. destruct G as [G|G]; rewrite G; reflexivity.
Qed.

Lemma empty_query_rejected_witness :
  run [ustr "search_web_py.py"; document "{}"] =
  (Exit 1,
   World [ustr "search_web_py.py"; document "{}"] ""
         (quoted "{`error`: `Empty search query`}" ++ newline)
         [document "{}"]) /\
  run [ustr "search_web_py.py"; document "{`query`: ``}"] =
  (Exit 1,
   World [ustr "search_web_py.py"; document "{`query`: ``}"] ""
         (quoted "{`error`: `Empty search query`}" ++ newline)
         [document "{`query`: ``}"]).
Proof.
  split.
  - rewrite (empty_query_rejected
               (ustr "search_web_py.py") (document "{}") [] []).
    + vm_compute. reflexivity.
    + vm_compute. reflexivity.
    + left. reflexivity.
  - rewrite (empty_query_rejected
               (ustr "search_web_py.py") (document "{`query`: ``}") []
               [(ustr "query", PyStr [])]).
    + vm_compute. reflexivity.
    + vm_compute. reflexivity.
    + right. reflexivity.
Defined.

(** C3, as stated, fails on a document that is not an object: the number
    [5] is valid JSON without a [query] field, and the program reports the
    missing attribute [get] of an [int], not an empty query. *)
Lemma non_object_argument_counterexample :
  json_loads (ustr "5") = Decoder.Value (PyInt 5) /\
  query_field (PyInt 5) = None /\
  run [ustr "search_web_py.py"; ustr "5"] =
  (Exit 1,
   World [ustr "search_web_py.py"; ustr "5"] ""
         (quoted "{`error`: `'int' object has no attribute 'get'`}" ++ newline)
         [ustr "5"]) /\
  stderr (snd (run [ustr "search_web_py.py"; ustr "5"])) <>
  json_dumps (PyDict [(ustr "error", PyStr (ustr "Empty search query"))])
  ++ newline.
Proof.
  repeat split; try (vm_compute; reflexivity).
  vm_compute. discriminate.
Qed.

(** C3, amended.  When the first argument decodes to a value without a
    [query] field, the program writes one error object on standard error and
    ends with exit code 1: [Empty search query] when the value is an object,
    and the description of the failed attribute lookup, ['T' object has no
    attribute 'get'] with [T] the type of the value, when it is a number, a
    string, an array, a boolean or null. *)
Theorem absent_query_field
        (prog arg : pystr) (rest : list pystr) (v : pyobj) :
  json_loads arg = Decoder.Value v ->
  query_field v = None ->
  run (prog :: arg :: rest) =
  (Exit 1,
   World (prog :: arg :: rest)
         ""
         (json_dumps
            (PyDict
               [(ustr "error",
                 PyStr (ustr match v with
                             | PyDict _ => "Empty search query"
                             | _ => "'" ++ type_name v
                                        ++ "' object has no attribute 'get'"
                             end))])
          ++ newline)
         [arg]).
Proof.
  intros L G. rewrite run_cases, script_cases. simpl.
  rewrite L. destruct v; try reflexivity.
  simpl in G. rewrite G. reflexivity.
Qed.

Lemma absent_query_field_witness :
  run [ustr "search_web_py.py"; document "{`q`: `cats`}"] =
  (Exit 1,
   World [ustr "search_web_py.py"; document "{`q`: `cats`}"] ""
         (quoted "{`error`: `Empty search query`}" ++ newline)
         [document "{`q`: `cats`}"]) /\
  run [ustr "search_web_py.py"; document "[`cats`]"] =
  (Exit 1,
   World [ustr "search_web_py.py"; document "[`cats`]"] ""
         (quoted "{`error`: `'list' object has no attribute 'get'`}" ++ newline)
         [document "[`cats`]"]).
Proof.
  split.
  - rewrite (absent_query_field
               (ustr "search_web_py.py") (document "{`q`: `cats`}") []
               (PyDict [(ustr "q", PyStr (ustr "cats"))])).
    + vm_compute. reflexivity.
    + vm_compute. reflexivity.
    + reflexivity.
  - rewrite (absent_query_field
               (ustr "search_web_py.py") (document "[`cats`]") []
               (PyList [PyStr (ustr "cats")])).
    + vm_compute. reflexivity.
    + vm_compute. reflexivity.
    + reflexivity.
Defined.

(** C4. Without an argument after the program name, the program writes the
    error object [No search query provided] on standard error and ends with
    exit code 1; the decoder is not called. *)
Theorem no_argument (args : list pystr) :
  List.length args < 2 ->
  run args =
  (Exit 1,
   World args
         ""
         (json_dumps
            (PyDict [(ustr "error", PyStr (ustr "No search query provided"))])
          ++ newline)
         []).
Proof.
  intros H. rewrite run_cases, script_cases.
  unfold start. cbn [sys_argv stdout stderr decoded].
  rewrite (short_argv args H). reflexivity.
Qed.

Lemma no_argument_witness :
  run [ustr "search_web_py.py"] =
  (Exit 1,
   World [ustr "search_web_py.py"] ""
         (quoted "{`error`: `No search query provided`}" ++ newline)
         []).
Proof.
  rewrite (no_argument [ustr "search_web_py.py"]).
  - vm_compute. reflexivity.
  - simpl. lia.
Defined.

(** C5, as stated, fails on text that is not valid JSON and that
    [json.loads] does not refuse with [JSONDecodeError].  [NaN] is no JSON
    value, yet the decoder reads it as a float, and the program reports the
    missing attribute [get] of a [float].  A text of 995 opening brackets
    is no JSON text either; the decoder raises [RecursionError] on it, and
    the second [except] clause reports its description. *)
Lemma not_json_counterexample :
  RFC8259.not_json (ustr "NaN") = true /\
  run [ustr "search_web_py.py"; ustr "NaN"] =
  (Exit 1,
   World [ustr "search_web_py.py"; ustr "NaN"] ""
         (quoted "{`error`: `'float' object has no attribute 'get'`}"
          ++ newline)
         [ustr "NaN"]) /\
  stderr (snd (run [ustr "search_web_py.py"; ustr "NaN"])) <>
  json_dumps (PyDict [(ustr "error", PyStr (ustr "Invalid JSON arguments"))])
  ++ newline /\
  RFC8259.not_json (repeat (ord "[") 995) = true /\
  run [ustr "search_web_py.py"; repeat (ord "[") 995] =
  (Exit 1,
   World [ustr "search_web_py.py"; repeat (ord "[") 995] ""
         (quoted "{`error`: `maximum recursion depth exceeded while decoding a JSON array from a unicode string`}"
          ++ newline)
         [repeat (ord "[") 995]) /\
  stderr (snd (run [ustr "search_web_py.py"; repeat (ord "[") 995])) <>
  json_dumps (PyDict [(ustr "error", PyStr (ustr "Invalid JSON arguments"))])
  ++ newline.
Proof.
  repeat split; try (vm_compute; reflexivity); vm_compute; discriminate.
Qed.

(** C5, amended.  When [json.loads] raises [JSONDecodeError] on the first
    argument, the program writes the error object [Invalid JSON arguments]
    on standard error and ends with exit code 1.  Text that is not valid
    JSON and that the decoder does not refuse this way takes another path:
    it is read as a value ([NaN], [Infinity], [-Infinity]), or the decoder
    raises [RecursionError] at the recursion limit. *)
Theorem invalid_json (prog arg : pystr) (rest : list pystr) :
  json_loads arg = Decoder.DecodeError ->
  run (prog :: arg :: rest) =
  (Exit 1,
   World (prog :: arg :: rest)
         ""
         (json_dumps
            (PyDict [(ustr "error", PyStr (ustr "Invalid JSON arguments"))])
          ++ newline)
         [arg]).
Proof.
  intros L. rewrite run_cases, script_cases. simpl.
  rewrite L. reflexivity.
Qed.

Lemma invalid_json_witness :
  run [ustr "search_web_py.py"; ustr "not-json"] =
  (Exit 1,
   World [ustr "search_web_py.py"; ustr "not-json"] ""
         (quoted "{`error`: `Invalid JSON arguments`}" ++ newline)
         [ustr "not-json"]).
Proof.
  rewrite (invalid_json (ustr "search_web_py.py") (ustr "not-json") []).
  - vm_compute. reflexivity.
  - vm_compute. reflexivity.
Defined.

(** C6. Every invocation ends with exit code 0 or 1, never on an uncaught
    exception; and a failure inside the [try] block that is not one of the
    anticipated ones (an exception below [Exception] other than
    [JSONDecodeError], with description [msg]: [ValueError],
    [AttributeError], [IndexError] or [RecursionError]) is reported as the
    error object holding [msg] on standard error, with exit code 1. *)
Theorem main_total (args : list pystr) :
  (exists w, run args = (Exit 0, w) \/ run args = (Exit 1, w)) /\
  (forall (e : exn) (msg : string) (w : world),
      2 <= List.length args ->
      try_block (start args) = (Raise e, w) ->
      e = ValueError msg \/ e = AttributeError msg \/ e = IndexError msg \/
      e = RecursionError msg ->
      run args =
      (Exit 1,
       World (sys_argv w) (stdout w)
             (stderr w
              ++ json_dumps (PyDict [(ustr "error", PyStr (ustr msg))])
              ++ newline)
             (decoded w))).
Proof.
  split.
  - rewrite run_cases, script_cases.
    destruct (nth_error _ 1) as [a|]; [|eauto].
    destruct (json_loads a) as [v| |msg|msg]; [|eauto|eauto|eauto].
    destruct v; eauto.
    cbv zeta. destruct (truthy _); eauto.
  - intros e msg w L B E.
    destruct args as [|prog [|arg rest]]; simpl in L; try lia.
    unfold run, script, main, bind, argv.
    cbn [start sys_argv List.length Nat.ltb Nat.leb].
    unfold ret.
    rewrite (except_Exception try_block _ w e msg B E). reflexivity.
Qed.

Lemma main_total_witness :
  try_block (start [ustr "search_web_py.py"; ustr "5"]) =
  (Raise (AttributeError "'int' object has no attribute 'get'"),
   World [ustr "search_web_py.py"; ustr "5"] "" "" [ustr "5"]) /\
  run [ustr "search_web_py.py"; ustr "5"] =
  (Exit 1,
   World [ustr "search_web_py.py"; ustr "5"] ""
         (quoted "{`error`: `'int' object has no attribute 'get'`}" ++ newline)
         [ustr "5"]).
Proof.
  assert (B : try_block (start [ustr "search_web_py.py"; ustr "5"]) =
              (Raise (AttributeError "'int' object has no attribute 'get'"),
               World [ustr "search_web_py.py"; ustr "5"] "" "" [ustr "5"])).
  { vm_compute. reflexivity. }
  split; [exact B|].
  rewrite (proj2 (main_total [ustr "search_web_py.py"; ustr "5"])
                 (AttributeError "'int' object has no attribute 'get'")
                 "'int' object has no attribute 'get'"
                 (World [ustr "search_web_py.py"; ustr "5"] "" "" [ustr "5"])).
  - vm_compute. reflexivity.
  - simpl. lia.
  - exact B.
  - right. left. reflexivity.
Defined.

(** C7. For every invocation, standard output receives text exactly when the
    exit code is 0, and that text is the result object; standard error
    receives text exactly when the exit code is 1, and that text is one JSON
    object with the single key [error] and a string as its value. *)
Theorem stream_separation (args : list pystr) :
  (stdout (snd (run args)) <> "" <-> fst (run args) = Exit 0) /\
  (stderr (snd (run args)) <> "" <-> fst (run args) = Exit 1) /\
  (fst (run args) = Exit 0 ->
   exists query : pyobj,
     stdout (snd (run args)) =
     json_dumps
       (PyDict [(ustr "query", query);
                (ustr "results", PyList []);
                (ustr "message",
                 PyStr (ustr "Web search functionality not yet implemented"))])
     ++ newline) /\
  (fst (run args) = Exit 1 ->
   exists msg : pystr,
     stderr (snd (run args)) =
     json_dumps (PyDict [(ustr "error", PyStr msg)]) ++ newline).
Proof.
  rewrite run_cases, script_cases.
  unfold start. cbn [sys_argv stdout stderr decoded].
  assert (Y : forall v, "" ++ line v <> "") by (intros v; apply line_not_empty).
  assert (N : Exit 0 <> Exit 1) by discriminate.
  assert (N' : Exit 1 <> Exit 0) by discriminate.
  destruct (nth_error args 1) as [a|];
    [destruct (json_loads a) as [v| |m|m];
     [destruct v; cbv zeta; try destruct (truthy _)| | |]|];
    cbn [fst snd stdout stderr];
    (repeat split; intros; try congruence; try (exfalso; congruence);
     try (eapply Y; eassumption);
     try (eexists; unfold line, error_object; reflexivity)).
Qed.

(** C8. An invocation is a function of its arguments alone.  Take two
    invocations with the same arguments, each started in any state of the
    streams and of the record of decoder calls: they end with the same
    status and append the same text to standard output and the same text to
    standard error, namely what [run args] gives from the empty state. *)
Theorem invocation_deterministic
        (args : list pystr)
        (out1 err1 out2 err2 : string) (log1 log2 : list pystr) :
  exists (st : status) (out err : string) (log : list pystr),
    script (World args out1 err1 log1) =
    (st, World args (out1 ++ out) (err1 ++ err) (log1 ++ log)) /\
    script (World args out2 err2 log2) =
    (st, World args (out2 ++ out) (err2 ++ err) (log2 ++ log)) /\
    run args = (st, World args out err log).
Proof.
  exists (fst (run args)), (stdout (snd (run args))),
    (stderr (snd (run args))), (decoded (snd (run args))).
  rewrite !script_appends. repeat split.
  pose proof (script_appends args "" "" []) as S.
  change (script (World args "" "" [])) with (run args) in S.
  cbn [append app] in S. exact S.
Qed.

(** C9. The test on [query] is its truth value.  When the first argument
    decodes to an object whose [query] is [v], of any type, a true [v] is
    printed back as the [query] of the result object on standard output with
    exit code 0, and a false [v] gives the error object [Empty search query]
    with exit code 1.  Non-zero numbers, non-empty arrays and [true] are
    true; zero, [false], [null] and the empty array are false. *)
Theorem query_truthiness
        (prog arg : pystr) (rest : list pystr)
        (d : list (pystr * pyobj)) (v : pyobj) :
  json_loads arg = Decoder.Value (PyDict d) ->
  dict_get d (ustr "query") = Some v ->
  run (prog :: arg :: rest) =
  (if truthy v
   then (Exit 0,
         World (prog :: arg :: rest)
               (json_dumps
                  (PyDict [(ustr "query", v);
                           (ustr "results", PyList []);
                           (ustr "message",
                            PyStr (ustr "Web search functionality not yet implemented"))])
                ++ newline)
               ""
               [arg])
   else (Exit 1,
         World (prog :: arg :: rest)
               ""
               (json_dumps
                  (PyDict [(ustr "error", PyStr (ustr "Empty search query"))])
                ++ newline)
               [arg])) /\
  (forall n : Z, n <> 0%Z -> truthy (PyInt n) = true) /\
  (forall (neg : bool) (m : positive) (e : Z),
      truthy (PyFloat (S754_finite neg m e)) = true) /\
  (forall (x : pyobj) (l : list pyobj), truthy (PyList (x :: l)) = true) /\
  truthy (PyBool true) = true /\
  truthy (PyInt 0) = false /\
  (forall neg : bool, truthy (PyFloat (S754_zero neg)) = false) /\
  truthy (PyBool false) = false /\
  truthy PyNone = false /\
  truthy (PyList []) = false.
Proof.
  intros L G. split.
  - rewrite run_cases, script_cases. simpl.
    rewrite L, G. simpl. destruct (truthy v); reflexivity.
  - repeat split; try reflexivity.
    intros n H. simpl. destruct (Z.eqb_spec n 0); [contradiction | reflexivity].
Qed.

Lemma query_truthiness_witness :
  run [ustr "search_web_py.py"; document "{`query`: [7, true]}"] =
  (Exit 0,
   World [ustr "search_web_py.py"; document "{`query`: [7, true]}"]
         (quoted "{`query`: [7, true], `results`: [], `message`: `Web search functionality not yet implemented`}"
          ++ newline)
         ""
         [document "{`query`: [7, true]}"]) /\
  run [ustr "search_web_py.py"; document "{`query`: 0}"] =
  (Exit 1,
   World [ustr "search_web_py.py"; document "{`query`: 0}"]
         ""
         (quoted "{`error`: `Empty search query`}" ++ newline)
         [document "{`query`: 0}"]).
Proof.
  split.
  - rewrite (proj1 (query_truthiness
                      (ustr "search_web_py.py")
                      (document "{`query`: [7, true]}") []
                      [(ustr "query", PyList [PyInt 7; PyBool true])]
                      (PyList [PyInt 7; PyBool true])
                      ltac:(vm_compute; reflexivity)
                      ltac:(reflexivity))).
    vm_compute. reflexivity.
  - rewrite (proj1 (query_truthiness
                      (ustr "search_web_py.py")
                      (document "{`query`: 0}") []
                      [(ustr "query", PyInt 0)]
                      (PyInt 0)
                      ltac:(vm_compute; reflexivity)
                      ltac:(reflexivity))).
    vm_compute. reflexivity.
Defined.

(** C10. Only the first argument after the program name matters: two
    invocations with the same first argument end with the same status, write
    the same text on both streams and hand the same document to the decoder,
    whatever the program name and the later arguments are. *)
Theorem first_argument_only
        (prog1 prog2 arg : pystr) (rest1 rest2 : list pystr) :
  fst (run (prog1 :: arg :: rest1)) = fst (run (prog2 :: arg :: rest2)) /\
  stdout (snd (run (prog1 :: arg :: rest1))) =
  stdout (snd (run (prog2 :: arg :: rest2))) /\
  stderr (snd (run (prog1 :: arg :: rest1))) =
  stderr (snd (run (prog2 :: arg :: rest2))) /\
  decoded (snd (run (prog1 :: arg :: rest1))) =
  decoded (snd (run (prog2 :: arg :: rest2))).
Proof.
  rewrite !run_cases, !script_cases.
  unfold start. cbn [sys_argv stdout stderr decoded nth_error].
  destruct (json_loads arg) as [v| |msg|msg];
    [destruct v; cbv zeta; try destruct (truthy _)| | |];
    repeat split.
Qed.

(** ** Remarks on the decoder of CPython

    Inputs on which the paths above are easy to misjudge.  The decoder
    reads [NaN], which is not JSON, and a float is false only when it is a
    zero, so [NaN] is echoed.  A literal that underflows decodes to [0.0]
    and counts as an empty query.  Of a repeated member the last value
    stays.  An integer of more than 4300 digits is refused by [int] with a
    [ValueError], which the second [except] clause reports.  The decoder
    enters 994 containers, so 994 opening brackets are refused for the
    value that is missing, and an object that holds 994 arrays is refused
    at the last bracket with [RecursionError].  A fault other than a
    missing value, when it is found inside 992 containers or more, is not
    reported as [JSONDecodeError]: building that exception exceeds the
    limit. *)

Example nan_is_echoed :
  run [ustr "search_web_py.py"; document "{`query`: NaN}"] =
  (Exit 0,
   World [ustr "search_web_py.py"; document "{`query`: NaN}"]
         (quoted "{`query`: NaN, `results`: [], `message`: `Web search functionality not yet implemented`}"
          ++ newline)
         ""
         [document "{`query`: NaN}"]).
Proof. vm_compute. reflexivity. Qed.

Example underflow_is_empty :
  run [ustr "search_web_py.py"; document "{`query`: 1e-400}"] =
  (Exit 1,
   World [ustr "search_web_py.py"; document "{`query`: 1e-400}"]
         ""
         (quoted "{`error`: `Empty search query`}" ++ newline)
         [document "{`query`: 1e-400}"]).
Proof. vm_compute. reflexivity. Qed.

Example last_member_stays :
  run [ustr "search_web_py.py"; document "{`query`: ``, `query`: 2.50}"] =
  (Exit 0,
   World [ustr "search_web_py.py"; document "{`query`: ``, `query`: 2.50}"]
         (quoted "{`query`: 2.5, `results`: [], `message`: `Web search functionality not yet implemented`}"
          ++ newline)
         ""
         [document "{`query`: ``, `query`: 2.50}"]).
Proof. vm_compute. reflexivity. Qed.

Example long_integer_is_reported :
  run [ustr "search_web_py.py"; repeat (ord "7") 4301] =
  (Exit 1,
   World [ustr "search_web_py.py"; repeat (ord "7") 4301]
         ""
         (quoted "{`error`: `Exceeds the limit (4300 digits) for integer string conversion: value has 4301 digits; use sys.set_int_max_str_digits() to increase the limit`}"
          ++ newline)
         [repeat (ord "7") 4301]).
Proof. vm_compute. reflexivity. Qed.

Example nesting_limit_is_reached :
  run [ustr "search_web_py.py"; repeat (ord "[") 994] =
  (Exit 1,
   World [ustr "search_web_py.py"; repeat (ord "[") 994]
         ""
         (quoted "{`error`: `Invalid JSON arguments`}" ++ newline)
         [repeat (ord "[") 994]).
Proof. vm_compute. reflexivity. Qed.

Example deep_query_is_reported :
  let arg := (document "{`query`: " ++ repeat (ord "[") 994
              ++ repeat (ord "]") 994 ++ ustr "}")%list in
  run [ustr "search_web_py.py"; arg] =
  (Exit 1,
   World [ustr "search_web_py.py"; arg]
         ""
         (quoted "{`error`: `maximum recursion depth exceeded while decoding a JSON array from a unicode string`}"
          ++ newline)
         [arg]).
Proof. vm_compute. reflexivity. Qed.

Example fault_near_the_limit :
  let arg n := (repeat (ord "[") n ++ ustr "1 x")%list in
  stderr (snd (run [ustr "search_web_py.py"; arg 991])) =
  quoted "{`error`: `Invalid JSON arguments`}" ++ newline /\
  stderr (snd (run [ustr "search_web_py.py"; arg 992])) =
  quoted "{`error`: `maximum recursion depth exceeded while calling a Python object`}"
  ++ newline /\
  stderr (snd (run [ustr "search_web_py.py"; arg 993])) =
  quoted "{`error`: `maximum recursion depth exceeded`}" ++ newline /\
  stderr (snd (run [ustr "search_web_py.py"; arg 994])) =
  quoted "{`error`: `maximum recursion depth exceeded while calling a Python object`}"
  ++ newline.
Proof. vm_compute. repeat split. Qed.

(** * Further properties of the output

    What the program writes is one line of printable ASCII that the decoder
    of the same library reads back; the lemmas below relate the encoder and
    the decoder, and the theorems after them are about [run]. *)

Module OutputFacts.

Import Decoder.

(** ** The encoder, character by character *)

Lemma ustr_app (a b : string) : ustr (a ++ b) = (ustr a ++ ustr b)%list.
Proof.
  unfold ustr. induction a as [|c a IH]; simpl; [reflexivity|].
  f_equal. exact IH.
Qed.

Lemma string_app_assoc (a b c : string) : (a ++ b) ++ c = a ++ (b ++ c).
Proof. induction a as [|x a IH]; simpl; [reflexivity | now rewrite IH]. Qed.

Lemma concat_empty_cons (x : string) (xs : list string) :
  concat "" (x :: xs) = x ++ concat "" xs.
Proof.
  destruct xs as [|y ys]; simpl; [now rewrite string_app_empty | reflexivity].
Qed.

Lemma encoded_cons (c : N) (q : pystr) :
  encoded (c :: q) = (ustr (Encoder.escape_char c) ++ encoded q)%list.
Proof.
  unfold encoded. cbn [map]. rewrite concat_empty_cons, ustr_app. reflexivity.
Qed.

(** ** Hexadecimal digits *)

Lemma hex_value_digit (m : N) :
  Decoder.hex_value (hex_code m) = Some (N.land m 15).
Proof.
  unfold hex_code, Encoder.hex_digit.
  assert (B : (N.land m 15 < 16)%N).
  { change 15%N with (N.ones 4). rewrite N.land_ones.
    apply N.mod_lt. discriminate. }
  revert B. destruct (N.land m 15) as [|p]; intros B; [reflexivity|].
  do 4 (try destruct p as [p|p|]); try reflexivity; exfalso; try lia.
Qed.

Lemma hex4_escape (n : N) :
  (n < 65536)%N ->
  Decoder.hex4 (hex_code (N.shiftr n 12)) (hex_code (N.shiftr n 8))
               (hex_code (N.shiftr n 4)) (hex_code n) = Some n.
Proof.
  intros H. unfold Decoder.hex4. rewrite !hex_value_digit. f_equal.
  change 15%N with (N.ones 4). rewrite !N.land_ones, !N.shiftr_div_pow2.
  change (2 ^ 12)%N with 4096%N. change (2 ^ 8)%N with 256%N.
  change (2 ^ 4)%N with 16%N.
  pose proof (N.div_mod' n 16) as E0.
  pose proof (N.div_mod' (n / 16) 16) as E1.
  pose proof (N.div_mod' (n / 256) 16) as E2.
  rewrite N.Div0.div_div in E1, E2.
  change (16 * 16)%N with 256%N in E1. change (256 * 16)%N with 4096%N in E2.
  assert (S : (n / 4096 < 16)%N) by (apply N.Div0.div_lt_upper_bound; lia).
  rewrite (N.mod_small (n / 4096) 16 S).
  lia.
Qed.

Lemma ustr_escape_u (n : N) :
  ustr (Encoder.escape_u n) =
  [92; 117; hex_code (N.shiftr n 12); hex_code (N.shiftr n 8);
   hex_code (N.shiftr n 4); hex_code n]%N.
Proof. reflexivity. Qed.

(** ** Surrogate pairs *)

Lemma land_shiftl_small (a k x : N) :
  (x < 2 ^ k)%N -> N.land (N.shiftl a k) x = 0%N.
Proof.
  intros H. apply N.bits_inj_0. intros i. rewrite N.land_spec.
  destruct (N.lt_ge_cases i k) as [L|G].
  - rewrite N.shiftl_spec_low by exact L. reflexivity.
  - destruct (N.eq_dec x 0) as [->|NZ].
    + rewrite N.bits_0. apply andb_false_r.
    + rewrite (N.bits_above_log2 x i), andb_false_r; [reflexivity|].
      apply N.lt_le_trans with k; [|exact G].
      apply N.log2_lt_pow2; lia.
Qed.

Lemma lor_shiftl_small (a k x : N) :
  (x < 2 ^ k)%N -> N.lor (N.shiftl a k) x = (a * 2 ^ k + x)%N.
Proof.
  intros H. rewrite <- N.lxor_lor by (apply land_shiftl_small; exact H).
  rewrite <- N.add_nocarry_lxor by (apply land_shiftl_small; exact H).
  now rewrite N.shiftl_mul_pow2.
Qed.

Lemma high_of_value (c : N) :
  (65536 <= c < 1114112)%N -> high_of c = (55296 + (c - 65536) / 1024)%N.
Proof.
  intros H. unfold high_of.
  change 1023%N with (N.ones 10). rewrite N.land_ones, N.shiftr_div_pow2.
  change (2 ^ 10)%N with 1024%N.
  assert (S : ((c - 65536) / 1024 < 1024)%N)
    by (apply N.Div0.div_lt_upper_bound; lia).
  rewrite (N.mod_small _ _ S).
  change 55296%N with (N.shiftl 54 10).
  rewrite lor_shiftl_small by exact S. reflexivity.
Qed.

Lemma low_of_value (c : N) :
  low_of c = (56320 + (c - 65536) mod 1024)%N.
Proof.
  unfold low_of. change 1023%N with (N.ones 10). rewrite N.land_ones.
  change (2 ^ 10)%N with 1024%N.
  change 56320%N with (N.shiftl 55 10).
  rewrite lor_shiftl_small by (apply N.mod_lt; discriminate). reflexivity.
Qed.

Lemma join_split (c : N) :
  (65536 <= c < 1114112)%N ->
  Decoder.join_surrogates (high_of c) (low_of c) = c.
Proof.
  intros H. unfold Decoder.join_surrogates.
  rewrite (high_of_value c H), low_of_value.
  rewrite (N.add_comm 55296), N.add_sub, (N.add_comm 56320), N.add_sub.
  rewrite lor_shiftl_small by (apply N.mod_lt; discriminate).
  change (2 ^ 10)%N with 1024%N.
  pose proof (N.div_mod' (c - 65536) 1024). lia.
Qed.

Lemma high_of_range (c : N) :
  (65536 <= c < 1114112)%N -> (55296 <= high_of c <= 56319)%N.
Proof.
  intros H. rewrite (high_of_value c H).
  assert (S : ((c - 65536) / 1024 < 1024)%N)
    by (apply N.Div0.div_lt_upper_bound; lia).
  set (d := ((c - 65536) / 1024)%N) in *. lia.
Qed.

Lemma low_of_range (c : N) : (56320 <= low_of c <= 57343)%N.
Proof.
  rewrite low_of_value.
  pose proof (N.mod_lt (c - 65536) 1024) as L.
  set (d := ((c - 65536) mod 1024)%N) in *. lia.
Qed.

(** ** The scanner on encoded text *)

Local Open Scope N_scope.
Local Open Scope list_scope.

Lemma scanstring_plain (c : N) (T : pystr) :
  c <> 34 -> c <> 92 -> 32 <= c ->
  scanstring (c :: T) = push c (scanstring T).
Proof.
  intros A B C. cbn [scanstring].
  destruct (N.eqb_spec c 34); [contradiction|].
  destruct (N.eqb_spec c 92); [contradiction|].
  destruct (N.ltb_spec c 32); [lia | reflexivity].
Qed.

Lemma scanstring_short (esc ch : N) (T : pystr) :
  esc <> 117 -> backslash esc = Some ch ->
  scanstring (92 :: esc :: T) = push ch (scanstring T).
Proof.
  intros A B. cbn [scanstring]. cbn [N.eqb Pos.eqb].
  destruct (N.eqb_spec esc 117); [contradiction|].
  rewrite B. reflexivity.
Qed.

Lemma scanstring_u (h1 h2 h3 h4 uni : N) (T : pystr) :
  hex4 h1 h2 h3 h4 = Some uni ->
  (is_high_surrogate uni = true -> not_low_escape T) ->
  scanstring (92 :: 117 :: h1 :: h2 :: h3 :: h4 :: T) =
  push uni (scanstring T).
Proof.
  intros H L. cbn [scanstring]. cbn [N.eqb Pos.eqb]. rewrite H.
  destruct T as [|b [|u [|l1 [|l2 [|l3 [|l4 r3]]]]]]; try reflexivity.
  destruct (is_high_surrogate uni) eqn:Hi; [|reflexivity].
  destruct (N.eqb_spec b 92) as [Eb|]; [|reflexivity].
  destruct (N.eqb_spec u 117) as [Eu|]; [|reflexivity].
  cbn [andb].
  destruct (L eq_refl Eb Eu) as [v [Hv Lv]]. rewrite Hv, Lv. reflexivity.
Qed.

Lemma scanstring_pair (h1 h2 h3 h4 l1 l2 l3 l4 hi lo : N) (T : pystr) :
  hex4 h1 h2 h3 h4 = Some hi -> hex4 l1 l2 l3 l4 = Some lo ->
  is_high_surrogate hi = true -> is_low_surrogate lo = true ->
  scanstring (92 :: 117 :: h1 :: h2 :: h3 :: h4 ::
              92 :: 117 :: l1 :: l2 :: l3 :: l4 :: T) =
  push (join_surrogates hi lo) (scanstring T).
Proof.
  intros H L Hi Lo. cbn [scanstring]. cbn [N.eqb Pos.eqb].
  rewrite H, Hi. cbn [andb]. rewrite L, Lo. reflexivity.
Qed.

Lemma ord_ascii_of_N (c : N) : c < 256 -> ord (ascii_of_N c) = c.
Proof. intros H. unfold ord. apply N_ascii_embedding. exact H. Qed.

Ltac split_escape c :=
  unfold Encoder.escape_char;
  destruct (N.eqb_spec c 34) as [?|N34]; [subst c|
  destruct (N.eqb_spec c 92) as [?|N92]; [subst c|
  destruct (N.eqb_spec c 10) as [?|N10]; [subst c|
  destruct (N.eqb_spec c 13) as [?|N13]; [subst c|
  destruct (N.eqb_spec c 9) as [?|N9]; [subst c|
  destruct (N.eqb_spec c 12) as [?|N12]; [subst c|
  destruct (N.eqb_spec c 8) as [?|N8]; [subst c|
  destruct ((32 <=? c) && (c <=? 126)) eqn:Pr; [|
  destruct (N.ltb_spec c 65536) as [Lt|Ge]]]]]]]]].

Lemma scan_escape_char (c : N) (T : pystr) :
  scalar c = true ->
  (is_high_surrogate c = true -> not_low_escape T) ->
  scanstring (ustr (Encoder.escape_char c) ++ T) = push c (scanstring T).
Proof.
  intros S L. split_escape c;
    try (apply scanstring_short; [discriminate | reflexivity]).
  - apply andb_prop in Pr. destruct Pr as [P1 P2].
    apply N.leb_le in P1. apply N.leb_le in P2.
    change (ustr (String (ascii_of_N c) ""%string)) with [ord (ascii_of_N c)].
    rewrite ord_ascii_of_N by lia.
    apply scanstring_plain; assumption.
  - rewrite ustr_escape_u. apply scanstring_u; [|exact L].
    apply hex4_escape. exact Lt.
  - apply N.ltb_lt in S.
    change (scanstring
              (ustr (Encoder.escape_u (high_of c) ++ Encoder.escape_u (low_of c))%string ++ T) =
            push c (scanstring T)).
    rewrite ustr_app, !ustr_escape_u.
    pose proof (high_of_range c (conj Ge S)) as Hr.
    pose proof (low_of_range c) as Lr.
    cbn [app].
    rewrite (scanstring_pair _ _ _ _ _ _ _ _ (high_of c) (low_of c)).
    + rewrite join_split by (split; assumption). reflexivity.
    + apply hex4_escape. lia.
    + apply hex4_escape. lia.
    + unfold is_high_surrogate. apply andb_true_intro.
      split; apply N.leb_le; lia.
    + unfold is_low_surrogate. apply andb_true_intro.
      split; apply N.leb_le; lia.
Qed.

Lemma encoded_not_low (q : pystr) (rest : pystr) :
  match q with
  | c :: _ => scalar c = true /\ is_low_surrogate c = false
  | [] => True
  end ->
  not_low_escape (encoded q ++ 34 :: rest).
Proof.
  destruct q as [|c q].
  - intros _. change (encoded [] ++ 34 :: rest)%list with (34 :: rest).
    unfold not_low_escape.
    destruct rest as [|u [|l1 [|l2 [|l3 [|l4 r]]]]]; try exact I.
    intros E. discriminate.
  - intros [S Lo]. rewrite encoded_cons.
    set (T := (encoded q ++ 34 :: rest)%list).
    rewrite <- app_assoc. fold T.
    split_escape c;
      try (cbn [ustr list_ascii_of_string map app ord N_of_ascii N_of_digits];
           unfold not_low_escape;
           destruct T as [|l1 [|l2 [|l3 [|l4 r]]]]; try exact I;
           intros _ E; discriminate).
    + apply andb_prop in Pr. destruct Pr as [P1 P2].
      apply N.leb_le in P1. apply N.leb_le in P2.
      change (ustr (String (ascii_of_N c) ""%string)) with [ord (ascii_of_N c)].
      rewrite ord_ascii_of_N by lia. cbn [app].
      unfold not_low_escape.
      destruct T as [|u [|l1 [|l2 [|l3 [|l4 r]]]]]; try exact I.
      intros E. contradiction.
    + rewrite ustr_escape_u. cbn [app]. unfold not_low_escape.
      intros _ _. exists c. split; [apply hex4_escape; exact Lt | exact Lo].
    + apply N.ltb_lt in S.
      change (not_low_escape
                (ustr (Encoder.escape_u (high_of c) ++ Encoder.escape_u (low_of c))%string ++ T)).
      rewrite ustr_app, !ustr_escape_u. cbn [app]. unfold not_low_escape.
      pose proof (high_of_range c (conj Ge S)) as Hr.
      intros _ _. exists (high_of c). split; [apply hex4_escape; lia|].
      unfold is_low_surrogate. apply andb_false_intro1.
      apply N.leb_gt. lia.
Qed.

Lemma well_formed_cons (c : N) (q : pystr) :
  well_formed (c :: q) = true ->
  scalar c = true /\ well_formed q = true /\
  (is_high_surrogate c = true ->
   match q with
   | c' :: _ => scalar c' = true /\ is_low_surrogate c' = false
   | [] => True
   end).
Proof.
  unfold well_formed. cbn [forallb no_surrogate_pair].
  intros H. apply andb_prop in H. destruct H as [H1 H2].
  apply andb_prop in H1. destruct H1 as [Sc Sq].
  apply andb_prop in H2. destruct H2 as [P Pq].
  split; [exact Sc|]. split; [now rewrite Sq, Pq|].
  intros Hi. destruct q as [|c' q']; [exact I|].
  rewrite Hi in P. cbn [andb negb] in P.
  cbn [forallb] in Sq. apply andb_prop in Sq. destruct Sq as [Sc' _].
  split; [exact Sc'|]. destruct (is_low_surrogate c'); [discriminate|reflexivity].
Qed.

(** The decoder reads back what the encoder writes for a string. *)
Lemma scanstring_encoded (q rest : pystr) :
  well_formed q = true ->
  scanstring (encoded q ++ 34 :: rest) = Some (q, rest).
Proof.
  induction q as [|c q IH]; intros W.
  - reflexivity.
  - apply well_formed_cons in W. destruct W as [S [W L]].
    rewrite encoded_cons, <- app_assoc.
    rewrite scan_escape_char; [|exact S|].
    + rewrite (IH W). reflexivity.
    + intros Hi. apply encoded_not_low. exact (L Hi).
Qed.

Arguments encoded : simpl never.

Lemma ustr_encode_string (s : pystr) :
  ustr (Encoder.encode_basestring_ascii s) = 34 :: encoded s ++ [34].
Proof.
  unfold Encoder.encode_basestring_ascii, encoded.
  change (ustr (String dquote (concat "" (map Encoder.escape_char s)) ++ String dquote "")%string)
    with (34 :: ustr (concat "" (map Encoder.escape_char s) ++ String dquote "")%string).
  rewrite ustr_app. reflexivity.
Qed.

Lemma well_formed_ustr (msg : string) : well_formed (ustr msg) = true.
Proof.
  assert (B : forall c : ascii, ord c < 256) by (intros c; apply N_ascii_bounded).
  assert (Hi : forall c : ascii, is_high_surrogate (ord c) = false).
  { intros c. unfold is_high_surrogate. apply andb_false_intro1.
    apply N.leb_gt. specialize (B c). lia. }
  unfold well_formed. apply andb_true_intro. split.
  - induction msg as [|c s IH]; [reflexivity|].
    change (ustr (String c s)) with (ord c :: ustr s). cbn [forallb].
    rewrite IH, andb_true_r. unfold scalar. apply N.ltb_lt.
    specialize (B c). lia.
  - induction msg as [|c s IH]; [reflexivity|].
    change (ustr (String c s)) with (ord c :: ustr s).
    cbn [no_surrogate_pair]. rewrite IH, andb_true_r.
    destruct (ustr s); [reflexivity|]. now rewrite Hi.
Qed.

Lemma budget_three (c1 : N) (s : pystr) :
  budget (c1 :: s) = S (S (S (budget (c1 :: s) - 3))).
Proof. unfold budget. cbn [List.length]. lia. Qed.

Lemma budget_five (c1 c2 : N) (s : pystr) :
  budget (c1 :: c2 :: s) = S (S (S (S (S (budget (c1 :: c2 :: s) - 5))))).
Proof. unfold budget. cbn [List.length]. lia. Qed.

Ltac compute_term t := let x := eval vm_compute in t in change t with x.

(** The document of an error object. *)
Lemma error_document (msg : string) :
  ustr (line (error_object msg)) =
  ustr (quoted "{`error`: `") ++ encoded (ustr msg) ++ 34 :: 125 :: 10 :: [].
Proof.
  unfold line, error_object, json_dumps. cbn [Encoder.dumps map concat fst snd].
  rewrite !ustr_app, !ustr_encode_string.
  compute_term (encoded (ustr "error")).
  compute_term (ustr "{"). compute_term (ustr ": ").
  compute_term (ustr "}"). compute_term (ustr newline).
  compute_term (ustr (quoted "{`error`: `")).
  cbn [app]. rewrite <- !app_assoc. reflexivity.
Qed.

Lemma loads_error_document (msg : string) :
  json_loads (ustr (line (error_object msg))) =
  Decoder.Value (error_object msg).
Proof.
  rewrite error_document.
  set (q := ustr msg).
  assert (W : well_formed q = true) by apply well_formed_ustr.
  compute_term (ustr (quoted "{`error`: `")).
  cbn [app]. unfold json_loads, Decoder.loads. cbn [N.eqb Pos.eqb].
  unfold decode. rewrite budget_three.
  match goal with
  | |- context [(budget ?s - 3)%nat] => generalize (budget s - 3)%nat
  end.
  intros f.
  cbn [skip_ws is_ws N.eqb Pos.eqb orb].
  cbn [scan_once object_items N.eqb Pos.eqb skip_ws is_ws orb scanstring N.ltb N.compare Pos.compare Pos.compare_cont push].
  rewrite (scanstring_encoded q _ W).
  reflexivity.
Qed.

(** The document of a result object whose query is a string. *)
Lemma result_document (q : pystr) :
  ustr (line (result_object (PyStr q))) =
  ustr (quoted "{`query`: `") ++ encoded q
  ++ ustr (quoted "`, `results`: [], `message`: `Web search functionality not yet implemented`}")
  ++ [10].
Proof.
  unfold line, result_object, json_dumps.
  cbn [Encoder.dumps map concat fst snd].
  rewrite !ustr_app, !ustr_encode_string.
  compute_term (encoded (ustr "query")).
  compute_term (encoded (ustr "results")).
  compute_term (encoded (ustr "message")).
  compute_term (encoded (ustr "Web search functionality not yet implemented")).
  compute_term (ustr "{"). compute_term (ustr ": "). compute_term (ustr ", ").
  compute_term (ustr "[").  compute_term (ustr "]").
  compute_term (ustr "}"). compute_term (ustr newline).
  compute_term (ustr (quoted "{`query`: `")).
  compute_term (ustr (quoted "`, `results`: [], `message`: `Web search functionality not yet implemented`}")).
  cbn [app]. rewrite <- !app_assoc. reflexivity.
Qed.

Lemma loads_result_document (q : pystr) :
  well_formed q = true ->
  json_loads (ustr (line (result_object (PyStr q)))) =
  Decoder.Value (result_object (PyStr q)).
Proof.
  intros W. rewrite result_document.
  compute_term (ustr (quoted "{`query`: `")).
  compute_term (ustr (quoted "`, `results`: [], `message`: `Web search functionality not yet implemented`}")).
  cbn [app]. unfold json_loads, Decoder.loads. cbn [N.eqb Pos.eqb].
  unfold decode. rewrite budget_five.
  match goal with |- context [(budget ?s - 5)%nat] => generalize (budget s - 5)%nat end.
  intros f.
  cbn [skip_ws is_ws N.eqb Pos.eqb orb].
  cbn [scan_once object_items N.eqb Pos.eqb skip_ws is_ws orb scanstring N.ltb N.compare Pos.compare Pos.compare_cont push].
  rewrite (scanstring_encoded q _ W).
  reflexivity.
Qed.

(** ** Printable ASCII *)

Lemma list_ascii_app (a b : string) :
  list_ascii_of_string (a ++ b)%string =
  list_ascii_of_string a ++ list_ascii_of_string b.
Proof. induction a as [|c a IH]; simpl; [reflexivity | now rewrite IH]. Qed.

Lemma printable_app (a b : string) :
  printable (a ++ b)%string = printable a && printable b.
Proof. unfold printable. rewrite list_ascii_app. apply forallb_app. Qed.

Lemma printable_concat (sep : string) (l : list string) :
  printable sep = true ->
  Forall (fun x => printable x = true) l ->
  printable (concat sep l) = true.
Proof.
  intros Hs H. induction H as [|x l Hx Hl IH]; [reflexivity|].
  destruct l as [|y l']; [exact Hx|].
  change (concat sep (x :: y :: l')) with (x ++ sep ++ concat sep (y :: l'))%string.
  rewrite !printable_app, Hx, Hs, IH. reflexivity.
Qed.

Lemma printable_hex_digit (n : N) : is_printable (Encoder.hex_digit n) = true.
Proof.
  unfold Encoder.hex_digit.
  destruct (N.land n 15) as [|p]; [reflexivity|].
  do 4 (try destruct p as [p|p|]); reflexivity.
Qed.

Lemma printable_escape_u (n : N) : printable (Encoder.escape_u n) = true.
Proof.
  unfold printable, Encoder.escape_u. cbn [list_ascii_of_string forallb].
  rewrite !printable_hex_digit. reflexivity.
Qed.

Lemma printable_escape_char (c : N) : printable (Encoder.escape_char c) = true.
Proof.
  split_escape c; try reflexivity.
  - apply andb_prop in Pr. destruct Pr as [P1 P2].
    apply N.leb_le in P1. apply N.leb_le in P2.
    unfold printable, is_printable. cbn [list_ascii_of_string forallb].
    rewrite ord_ascii_of_N by lia.
    rewrite andb_true_r. apply andb_true_intro.
    split; apply N.leb_le; assumption.
  - apply printable_escape_u.
  - cbv zeta. rewrite printable_app, !printable_escape_u. reflexivity.
Qed.

Lemma printable_encode_string (s : pystr) :
  printable (Encoder.encode_basestring_ascii s) = true.
Proof.
  unfold Encoder.encode_basestring_ascii.
  change (String dquote (concat "" (map Encoder.escape_char s)) ++ String dquote "")%string
    with (String dquote "" ++ concat "" (map Encoder.escape_char s) ++ String dquote "")%string.
  rewrite !printable_app.
  rewrite printable_concat; [reflexivity | reflexivity |].
  apply Forall_forall. intros x I. apply in_map_iff in I.
  destruct I as [c [<- _]]. apply printable_escape_char.
Qed.

Lemma printable_uint (d : Decimal.uint) :
  printable (NilEmpty.string_of_uint d) = true.
Proof. induction d; simpl; try reflexivity; exact IHd. Qed.

Lemma printable_uint0 (d : Decimal.uint) :
  printable (NilZero.string_of_uint d) = true.
Proof.
  destruct d; try reflexivity; unfold NilZero.string_of_uint;
    apply printable_uint.
Qed.

Lemma printable_int (n : Z) : printable (Encoder.int_repr n) = true.
Proof.
  unfold Encoder.int_repr, NilZero.string_of_int.
  destruct (Z.to_int n) as [d|d].
  - apply printable_uint0.
  - change (printable ("-" ++ NilZero.string_of_uint d)%string = true).
    rewrite printable_app, printable_uint0. reflexivity.
Qed.

Lemma printable_of_list (l : list ascii) :
  printable (string_of_list_ascii l) = printable_list l.
Proof.
  unfold printable. now rewrite list_ascii_of_string_of_list_ascii.
Qed.

Lemma printable_digits_of (d : Z) : printable_list (Float.digits_of d) = true.
Proof. unfold Float.digits_of. apply printable_uint0. Qed.

Lemma printable_list_incl (l l' : list ascii) :
  (forall c, In c l' -> In c l) ->
  printable_list l = true -> printable_list l' = true.
Proof.
  unfold printable_list. intros I H. apply forallb_forall. intros c Hc.
  apply (proj1 (forallb_forall _ _) H). apply I. exact Hc.
Qed.

Lemma strip_zeros_incl (l : list ascii) (c : ascii) :
  In c (Float.strip_zeros l) -> In c l.
Proof.
  induction l as [|x l IH]; simpl; [tauto|].
  destruct (Ascii.eqb x "0"); [intros H; right; apply IH; exact H | tauto].
Qed.

Lemma printable_zeros (n : Z) : printable_list (Float.zeros n) = true.
Proof.
  unfold Float.zeros. induction (Z.to_nat n) as [|k IH]; [reflexivity|].
  simpl. exact IH.
Qed.

Lemma printable_exponent_text (x : Z) :
  printable_list (Float.exponent_text x) = true.
Proof.
  unfold Float.exponent_text.
  pose proof (printable_digits_of (Z.abs x)) as D.
  assert (S : is_printable (if (x <? 0)%Z then "-"%char else "+"%char) = true)
    by (destruct (x <? 0)%Z; reflexivity).
  cbn [printable_list forallb]. unfold printable_list in *. rewrite S.
  destruct (_ <? _)%nat; cbn [forallb andb]; rewrite ?D; reflexivity.
Qed.

Lemma printable_layout (ds : list ascii) (pt : Z) :
  printable_list ds = true -> printable_list (Float.layout ds pt) = true.
Proof.
  intros D. unfold Float.layout.
  pose proof (printable_exponent_text (pt - 1)) as E.
  unfold printable_list in *.
  destruct (_ || _).
  - destruct ds as [|d1 rest]; [reflexivity|].
    cbn [forallb] in D. apply andb_prop in D. destruct D as [D1 Dr].
    destruct rest as [|d2 rest'].
    + cbn [app forallb]. rewrite D1, E. reflexivity.
    + rewrite forallb_app. cbn [forallb]. cbn [forallb] in Dr.
      rewrite D1, Dr, E. reflexivity.
  - destruct (pt <=? 0)%Z.
    + cbn [forallb]. rewrite forallb_app.
      pose proof (printable_zeros (- pt)) as Z0. unfold printable_list in Z0.
      rewrite Z0, D. reflexivity.
    + destruct (_ <=? pt)%Z.
      * rewrite !forallb_app.
        pose proof (printable_zeros (pt - Z.of_nat (Datatypes.length ds))) as Z0.
        unfold printable_list in Z0. rewrite D, Z0. reflexivity.
      * rewrite forallb_app. cbn [forallb].
        rewrite <- (firstn_skipn (Z.to_nat pt) ds), forallb_app in D.
        apply andb_prop in D. destruct D as [D1 D2].
        rewrite D1, D2. reflexivity.
Qed.

Lemma printable_repr_finite (m : positive) (e : Z) :
  printable_list (Float.repr_finite m e) = true.
Proof.
  unfold Float.repr_finite. destruct (Float.shortest m e) as [d x].
  apply printable_layout.
  apply (printable_list_incl (Float.digits_of d)); [|apply printable_digits_of].
  intros c I. apply in_rev in I. apply strip_zeros_incl in I.
  apply in_rev. exact I.
Qed.

Lemma printable_floatstr (x : spec_float) :
  printable (Encoder.floatstr x) = true.
Proof.
  destruct x as [s|s| |s m e]; try (destruct s; reflexivity); try reflexivity.
  unfold Encoder.floatstr, Float.repr.
  rewrite printable_app, printable_of_list, printable_repr_finite.
  destruct s; reflexivity.
Qed.

Lemma printable_dumps (v : pyobj) : printable (json_dumps v) = true.
Proof.
  unfold json_dumps. induction v using pyobj_induction.
  - reflexivity.
  - destruct b; reflexivity.
  - apply printable_int.
  - apply printable_floatstr.
  - apply printable_encode_string.
  - cbn [Encoder.dumps]. rewrite !printable_app.
    rewrite printable_concat; [reflexivity | reflexivity |].
    apply Forall_forall. intros x I. apply in_map_iff in I.
    destruct I as [y [<- Iy]].
    apply (proj1 (Forall_forall _ _) H y Iy).
  - cbn [Encoder.dumps]. rewrite !printable_app.
    rewrite printable_concat; [reflexivity | reflexivity |].
    apply Forall_forall. intros x I. apply in_map_iff in I.
    destruct I as [kv [<- Ikv]].
    rewrite !printable_app, printable_encode_string.
    rewrite (proj1 (Forall_forall _ _) H kv Ikv). reflexivity.
Qed.

Local Open Scope nat_scope.
Local Open Scope string_scope.

(** ** Messages *)

Lemma ord_injective (a b : ascii) : ord a = ord b -> a = b.
Proof.
  unfold ord. intros H.
  rewrite <- (ascii_N_embedding a), <- (ascii_N_embedding b), H. reflexivity.
Qed.

Lemma ustr_injective (a : string) : forall b, ustr a = ustr b -> a = b.
Proof.
  induction a as [|x a IH]; intros [|y b] H; try discriminate; [reflexivity|].
  change (ord x :: ustr a = ord y :: ustr b)%list in H. inversion H as [[Hx Ha]].
  apply ord_injective in Hx. apply IH in Ha. now subst.
Qed.

(** Two error lines are equal only for equal messages. *)
Lemma error_line_injective (m1 m2 : string) :
  line (error_object m1) = line (error_object m2) -> m1 = m2.
Proof.
  intros H. apply (f_equal (fun s => json_loads (ustr s))) in H.
  rewrite !loads_error_document in H. unfold error_object in H.
  inversion H as [E]. apply ustr_injective. exact E.
Qed.

Lemma parse_int_raises (neg : bool) (n : N) (count : nat) (msg : string) :
  parse_int neg n count = inr msg -> limit_message msg.
Proof.
  unfold parse_int. destruct (int_max_str_digits <? count)%nat; [|discriminate].
  intros H. inversion H. eexists. reflexivity.
Qed.

Lemma match_number_raises (s : pystr) (msg : string) :
  match_number s = Raised msg -> limit_message msg.
Proof.
  unfold match_number.
  destruct (match s with [] => _ | _ => _ end) as [neg s1].
  destruct (integer_part s1) as [[[i di] s2]|]; [|discriminate].
  destruct (match fraction_part s2 with Some _ => _ | None => _ end)
    as [frac s3].
  destruct (match exponent_part s3 with Some _ => _ | None => _ end)
    as [exp s4].
  destruct frac as [[f count]|]; [discriminate|].
  destruct exp; [discriminate|].
  destruct (parse_int neg i di) eqn:P; [discriminate|].
  intros H. inversion H; subst. eapply parse_int_raises. exact P.
Qed.

Lemma scan_atom_raises (depth : nat) (s : pystr) (msg : string) :
  scan_atom depth s = Raised msg -> limit_message msg.
Proof.
  unfold scan_atom. intros H.
  repeat DecoderFacts.break_match_in H; try discriminate;
    try (exfalso; revert H; apply DecoderFacts.parse_constant_raised).
  inversion H; subst. eapply match_number_raises. eassumption.
Qed.

Ltac not_raised H :=
  solve [ discriminate H
        | exfalso; revert H; apply DecoderFacts.raise_errmsg_raised ].

Lemma scan_raises (fuel : nat) :
  (forall depth s msg,
      scan_once fuel depth s = Raised msg -> limit_message msg) /\
  (forall depth s values msg,
      array_items fuel depth s values = Raised msg -> limit_message msg) /\
  (forall depth s d msg,
      object_items fuel depth s d = Raised msg -> limit_message msg).
Proof.
  induction fuel as [|fuel [IHs [IHa IHo]]].
  - repeat split; intros; discriminate.
  - repeat split.
    + intros depth s msg H. cbn [scan_once] in H.
      repeat DecoderFacts.break_match_in H; try not_raised H;
        eauto using scan_atom_raises.
    + intros depth s values msg H. cbn [array_items] in H.
      repeat DecoderFacts.break_match_in H; try not_raised H; eauto.
      inversion H; subst. eauto.
    + intros depth s d msg H. cbn [object_items] in H.
      repeat DecoderFacts.break_match_in H; try not_raised H; eauto.
      inversion H; subst. eauto.
Qed.

Lemma loads_int_error (a : pystr) (msg : string) :
  json_loads a = Decoder.IntError msg -> limit_message msg.
Proof.
  unfold json_loads, Decoder.loads.
  assert (D : decode a = IntError msg -> limit_message msg).
  { unfold decode.
    destruct (scan_once (budget a) nesting_limit (skip_ws a)) eqn:E;
      try discriminate.
    - destruct (skip_ws rest); discriminate.
    - intros H. inversion H; subst.
      eapply (proj1 (scan_raises _)). exact E. }
  destruct a as [|c r]; [exact D|].
  destruct (c =? 65279)%N; [discriminate | exact D].
Qed.

(** The [RecursionError] of the scanner carries one of four
    descriptions. *)
Lemma raise_errmsg_too_deep (depth : nat) (msg : string) :
  @raise_errmsg pyobj depth = TooDeep msg -> depth_message msg.
Proof.
  unfold depth_message.
  destruct depth as [|[|[|depth]]]; simpl; intros H; inversion H; auto.
Qed.

Lemma parse_constant_too_deep
      (depth : nat) (v : pyobj) (r : pystr) (msg : string) :
  parse_constant depth v r = TooDeep msg -> depth_message msg.
Proof.
  unfold depth_message.
  destruct depth; simpl; intros H; inversion H; auto.
Qed.

Lemma match_number_shallow (s : pystr) (msg : string) :
  match_number s <> TooDeep msg.
Proof.
  unfold match_number.
  destruct (match s with [] => _ | _ => _ end) as [neg s1].
  destruct (integer_part s1) as [[[i di] s2]|]; [|discriminate].
  destruct (match fraction_part s2 with Some _ => _ | None => _ end)
    as [frac s3].
  destruct (match exponent_part s3 with Some _ => _ | None => _ end)
    as [exp s4].
  destruct frac as [[f count]|]; [discriminate|].
  destruct exp; [discriminate|].
  destruct (parse_int neg i di); discriminate.
Qed.

Lemma scan_atom_too_deep (depth : nat) (s : pystr) (msg : string) :
  scan_atom depth s = TooDeep msg -> depth_message msg.
Proof.
  unfold scan_atom. intros H.
  repeat DecoderFacts.break_match_in H; try discriminate;
    eauto using parse_constant_too_deep.
  inversion H; subst. exfalso. eapply match_number_shallow. eassumption.
Qed.

Lemma scan_too_deep (fuel : nat) :
  (forall depth s msg,
      scan_once fuel depth s = TooDeep msg -> depth_message msg) /\
  (forall depth s values msg,
      array_items fuel depth s values = TooDeep msg -> depth_message msg) /\
  (forall depth s d msg,
      object_items fuel depth s d = TooDeep msg -> depth_message msg).
Proof.
  induction fuel as [|fuel [IHs [IHa IHo]]].
  - repeat split; intros; discriminate.
  - repeat split.
    + intros depth s msg H. cbn [scan_once] in H.
      repeat DecoderFacts.break_match_in H; try discriminate;
        eauto using scan_atom_too_deep, raise_errmsg_too_deep;
        inversion H; subst; unfold depth_message; auto.
    + intros depth s values msg H. cbn [array_items] in H.
      repeat DecoderFacts.break_match_in H; try discriminate;
        eauto using raise_errmsg_too_deep.
      inversion H; subst. eauto.
    + intros depth s d msg H. cbn [object_items] in H.
      repeat DecoderFacts.break_match_in H; try discriminate;
        eauto using raise_errmsg_too_deep.
      inversion H; subst. eauto.
Qed.

Lemma loads_depth_error (a : pystr) (msg : string) :
  json_loads a = Decoder.DepthError msg -> depth_message msg.
Proof.
  unfold json_loads, Decoder.loads.
  assert (D : decode a = DepthError msg -> depth_message msg).
  { unfold decode.
    destruct (scan_once (budget a) nesting_limit (skip_ws a)) eqn:E;
      try discriminate.
    - destruct (skip_ws rest); discriminate.
    - intros H. inversion H; subst.
      eapply (proj1 (scan_too_deep _)). exact E. }
  destruct a as [|c r]; [exact D|].
  destruct (c =? 65279)%N; [discriminate | exact D].
Qed.

Lemma short_argv_iff (args : list pystr) :
  nth_error args 1 = None <-> List.length args < 2.
Proof.
  destruct args as [|prog [|arg rest]]; simpl; split; intros H;
    try reflexivity; try lia; discriminate.
Qed.

End OutputFacts.

Import OutputFacts.

(** ** Further properties of [main] *)

(** X1. The exit code is 0 exactly when there is a first argument, it
    decodes to a JSON object, the object has a [query], and that value is
    true. *)
Theorem exit_zero_iff (args : list pystr) :
  fst (run args) = Exit 0 <->
  exists (arg : pystr) (d : list (pystr * pyobj)) (v : pyobj),
    nth_error args 1 = Some arg /\
    json_loads arg = Decoder.Value (PyDict d) /\
    dict_get d (ustr "query") = Some v /\
    truthy v = true.
Proof.
  rewrite run_cases, script_cases.
  unfold start. cbn [sys_argv stdout stderr decoded].
  split.
  - destruct (nth_error args 1) as [a|] eqn:A; [|discriminate].
    destruct (json_loads a) as [v| |msg|msg] eqn:L; try discriminate.
    destruct v; try discriminate. cbv zeta.
    destruct (dict_get items (ustr "query")) as [v|] eqn:G; [|discriminate].
    destruct (truthy v) eqn:T; [|discriminate].
    intros _. exists a, items, v. repeat split; assumption.
  - intros [a [d [v [A [L [G T]]]]]]. rewrite A, L. cbv zeta.
    rewrite G, T. reflexivity.
Qed.

Ltac attribute_error v :=
  unfold get, raise; intros H; inversion H;
  right; right; right; left; exists v; reflexivity.

(** X2. Once the guard on the number of arguments has passed, the [try]
    block raises nothing but [SystemExit(1)] (empty query),
    [JSONDecodeError], the [ValueError] of [int], the [AttributeError] of
    [get] on a value that is not a dict, and the [RecursionError] of the
    decoder at the recursion limit, with one of its four descriptions;
    [sys.argv[1]] is always in range, so [IndexError] never occurs. *)
Theorem try_block_exceptions
        (args : list pystr) (out err : string) (log : list pystr)
        (e : exn) (w : world) :
  2 <= List.length args ->
  try_block (World args out err log) = (Raise e, w) ->
  e = SystemExit 1 \/
  e = JSONDecodeError \/
  (exists msg : string, e = ValueError msg) \/
  (exists v : pyobj,
      e = AttributeError
            ("'" ++ type_name v ++ "' object has no attribute 'get'")) \/
  (exists msg : string, depth_message msg /\ e = RecursionError msg).
Proof.
  intros L.
  destruct args as [|prog [|arg rest]]; simpl in L; try lia.
  unfold try_block, bind, argv, item, loads.
  cbn [sys_argv nth_error ret].
  destruct (json_loads arg) as [v| |msg|msg] eqn:D.
  - destruct v as [|b|n|x|s|l|d];
      [ attribute_error PyNone | attribute_error (PyBool b)
      | attribute_error (PyInt n) | attribute_error (PyFloat x)
      | attribute_error (PyStr s) | attribute_error (PyList l) | ].
    unfold get, ret. cbv beta iota.
    match goal with
    | |- context [truthy ?x] => destruct (truthy x)
    end; cbn [negb]; unfold print, sys_exit, raise, ret;
      intros H; inversion H. left. reflexivity.
  - intros H; inversion H. right. left. reflexivity.
  - intros H; inversion H. right. right. left. eexists. reflexivity.
  - intros H; inversion H. right. right. right. right.
    exists msg. split; [exact (loads_depth_error arg msg D) | reflexivity].
Qed.

Lemma try_block_exceptions_witness :
  AttributeError "'list' object has no attribute 'get'" = SystemExit 1 \/
  AttributeError "'list' object has no attribute 'get'" = JSONDecodeError \/
  (exists msg : string,
      AttributeError "'list' object has no attribute 'get'" = ValueError msg) \/
  (exists v : pyobj,
      AttributeError "'list' object has no attribute 'get'" =
      AttributeError ("'" ++ type_name v ++ "' object has no attribute 'get'")) \/
  (exists msg : string,
      depth_message msg /\
      AttributeError "'list' object has no attribute 'get'" =
      RecursionError msg).
Proof.
  apply (try_block_exceptions
           [ustr "search_web_py.py"; ustr "[]"] "" "" []
           (AttributeError "'list' object has no attribute 'get'")
           (World [ustr "search_web_py.py"; ustr "[]"] "" "" [ustr "[]"])).
  - simpl. lia.
  - vm_compute. reflexivity.
Defined.

(** X3. Every invocation writes exactly one line, on exactly one of the two
    streams: printable ASCII text, without any control or non-ASCII
    character, followed by one newline. *)
Theorem one_printable_line (args : list pystr) :
  exists text : string,
    printable text = true /\
    ((stdout (snd (run args)) = text ++ newline /\
      stderr (snd (run args)) = "") \/
     (stdout (snd (run args)) = "" /\
      stderr (snd (run args)) = text ++ newline)).
Proof.
  rewrite run_cases, script_cases.
  unfold start. cbn [sys_argv stdout stderr decoded].
  destruct (nth_error args 1) as [a|];
    [destruct (json_loads a) as [v| |msg|msg];
     [destruct v; cbv zeta; try destruct (truthy _)| | |]|];
    cbn [fst snd stdout stderr append]; unfold line;
    eexists; (split; [apply printable_dumps|]);
    first [left; split; reflexivity | right; split; reflexivity].
Qed.

(** X4. The success output is a JSON document that the decoder reads back:
    for a non-empty string query that is well formed, decoding standard
    output gives the result object with that very query. *)
Theorem result_reads_back
        (prog arg : pystr) (rest : list pystr)
        (d : list (pystr * pyobj)) (q : pystr) :
  json_loads arg = Decoder.Value (PyDict d) ->
  dict_get d (ustr "query") = Some (PyStr q) ->
  q <> [] ->
  well_formed q = true ->
  json_loads (ustr (stdout (snd (run (prog :: arg :: rest))))) =
  Decoder.Value (result_object (PyStr q)).
Proof.
  intros L G Q W. rewrite run_cases, script_cases.
  unfold start. cbn [sys_argv stdout stderr decoded nth_error].
  rewrite L. cbv zeta. rewrite G.
  destruct q as [|c q]; [contradiction|]. cbn [truthy snd stdout append].
  apply (loads_result_document (c :: q) W).
Qed.

Lemma result_reads_back_witness :
  json_loads
    (ustr (stdout (snd (run [ustr "search_web_py.py";
                             document "{`query`: `caf\u00e9 \ud83d\ude00`}"])))) =
  Decoder.Value (result_object (PyStr [99; 97; 102; 233; 32; 128512]%N)).
Proof.
  apply (result_reads_back
           (ustr "search_web_py.py")
           (document "{`query`: `caf\u00e9 \ud83d\ude00`}") []
           [(ustr "query", PyStr [99; 97; 102; 233; 32; 128512]%N)]
           [99; 97; 102; 233; 32; 128512]%N).
  - vm_compute. reflexivity.
  - reflexivity.
  - discriminate.
  - reflexivity.
Defined.

(** The hypothesis of X4 on the query is needed: a high and a low surrogate
    given as two characters are written as two escapes, which the decoder
    joins into one character. *)
Example surrogate_pair_is_joined :
  let arg := (document "{`query`: `\ud83d" ++ [56448%N] ++ document "`}")%list in
  json_loads arg =
  Decoder.Value (PyDict [(ustr "query", PyStr [55357; 56448]%N)]) /\
  well_formed [55357; 56448]%N = false /\
  json_loads (ustr (stdout (snd (run [ustr "search_web_py.py"; arg])))) =
  Decoder.Value (result_object (PyStr [128128]%N)).
Proof. vm_compute. repeat split. Qed.

(** X5. The error output is a JSON document that the decoder reads back:
    whenever the exit code is 1, standard error is the line of an error
    object, and decoding it gives the object with the single key [error] and
    the message. *)
Theorem error_reads_back (args : list pystr) :
  fst (run args) = Exit 1 ->
  exists msg : string,
    stderr (snd (run args)) = json_dumps (error_object msg) ++ newline /\
    json_loads (ustr (stderr (snd (run args)))) =
    Decoder.Value (PyDict [(ustr "error", PyStr (ustr msg))]).
Proof.
  rewrite run_cases, script_cases.
  unfold start. cbn [sys_argv stdout stderr decoded].
  destruct (nth_error args 1) as [a|];
    [destruct (json_loads a) as [v| |msg|msg];
     [destruct v; cbv zeta; try destruct (truthy _)| | |]|];
    cbn [fst snd stdout stderr append]; try discriminate; intros _;
    eexists; (split; [reflexivity | apply loads_error_document]).
Qed.

Lemma error_reads_back_witness :
  exists msg : string,
    stderr (snd (run [ustr "search_web_py.py"; ustr "not-json"])) =
    json_dumps (error_object msg) ++ newline /\
    json_loads (ustr (stderr (snd (run [ustr "search_web_py.py";
                                        ustr "not-json"])))) =
    Decoder.Value (PyDict [(ustr "error", PyStr (ustr msg))]).
Proof.
  apply (error_reads_back [ustr "search_web_py.py"; ustr "not-json"]).
  vm_compute. reflexivity.
Defined.

(** X6. The success output is a fixed point: passed as the first argument
    of another invocation, it is accepted with exit code 0 and printed
    again unchanged. *)
Theorem result_fed_back
        (prog arg : pystr) (rest : list pystr)
        (d : list (pystr * pyobj)) (q : pystr)
        (prog' : pystr) (rest' : list pystr) :
  json_loads arg = Decoder.Value (PyDict d) ->
  dict_get d (ustr "query") = Some (PyStr q) ->
  q <> [] ->
  well_formed q = true ->
  fst (run (prog' :: ustr (stdout (snd (run (prog :: arg :: rest)))) :: rest')) =
  Exit 0 /\
  stdout (snd (run (prog' :: ustr (stdout (snd (run (prog :: arg :: rest))))
                          :: rest'))) =
  stdout (snd (run (prog :: arg :: rest))).
Proof.
  intros L G Q W.
  assert (O : stdout (snd (run (prog :: arg :: rest))) =
              line (result_object (PyStr q))).
  { rewrite run_cases, script_cases.
    unfold start. cbn [sys_argv stdout stderr decoded nth_error].
    rewrite L. cbv zeta. rewrite G.
    destruct q as [|c q]; [contradiction | reflexivity]. }
  rewrite O. rewrite run_cases, script_cases.
  unfold start. cbn [sys_argv stdout stderr decoded nth_error].
  rewrite (loads_result_document q W).
  assert (D : dict_get [(ustr "query", PyStr q); (ustr "results", PyList []);
                        (ustr "message",
                         PyStr (ustr "Web search functionality not yet implemented"))]
                       (ustr "query") = Some (PyStr q)) by reflexivity.
  unfold result_object. cbv beta iota zeta. rewrite D.
  destruct q as [|c q]; [contradiction|].
  cbn [truthy fst snd stdout append]. split; reflexivity.
Qed.

Lemma result_fed_back_witness :
  fst (run [ustr "python3";
            ustr (stdout (snd (run [ustr "search_web_py.py";
                                    document "{`query`: `cats`}"])))]) =
  Exit 0 /\
  stdout (snd (run [ustr "python3";
                    ustr (stdout (snd (run [ustr "search_web_py.py";
                                            document "{`query`: `cats`}"])))])) =
  stdout (snd (run [ustr "search_web_py.py"; document "{`query`: `cats`}"])).
Proof.
  apply (result_fed_back
           (ustr "search_web_py.py") (document "{`query`: `cats`}") []
           [(ustr "query", PyStr (ustr "cats"))] (ustr "cats")
           (ustr "python3") []).
  - vm_compute. reflexivity.
  - reflexivity.
  - discriminate.
  - reflexivity.
Defined.

Ltac solve_cause :=
  solve
    [ reflexivity
    | discriminate
    | let H := fresh in
      intros H; apply error_line_injective in H; vm_compute in H;
      discriminate
    | let H := fresh in
      intros H; exfalso; symmetry in H; revert H; apply line_not_empty
    | intros [? [? ?]]; congruence
    | intros [? [? [? [? ?]]]]; congruence ].

(** X7. Each fixed message has one cause.  [No search query provided] is
    written exactly when there are fewer than two arguments,
    [Invalid JSON arguments] exactly when the first argument makes
    [json.loads] raise [JSONDecodeError], and [Empty search query] exactly
    when it decodes to an object whose [query], or the empty string in its
    absence, is false.  No description that the second [except] clause
    echoes, of an [AttributeError], a [ValueError] or a [RecursionError],
    is one of the three. *)
Theorem fixed_messages_identify_cause (args : list pystr) :
  (stderr (snd (run args)) =
   json_dumps (error_object "No search query provided") ++ newline <->
   List.length args < 2) /\
  (stderr (snd (run args)) =
   json_dumps (error_object "Invalid JSON arguments") ++ newline <->
   exists arg : pystr,
     nth_error args 1 = Some arg /\ json_loads arg = Decoder.DecodeError) /\
  (stderr (snd (run args)) =
   json_dumps (error_object "Empty search query") ++ newline <->
   exists (arg : pystr) (d : list (pystr * pyobj)),
     nth_error args 1 = Some arg /\
     json_loads arg = Decoder.Value (PyDict d) /\
     truthy match dict_get d (ustr "query") with
            | Some v => v
            | None => PyStr (ustr "")
            end = false).
Proof.
  rewrite <- short_argv_iff.
  rewrite run_cases, script_cases.
  unfold start. cbn [sys_argv stdout stderr decoded].
  fold (line (error_object "No search query provided")).
  fold (line (error_object "Invalid JSON arguments")).
  fold (line (error_object "Empty search query")).
  destruct (nth_error args 1) as [a|] eqn:A;
    [destruct (json_loads a) as [v| |msg|msg] eqn:L;
     [destruct v as [|b|n|x|s|l|d]; cbv zeta;
      [ | | | | | |destruct (truthy _) eqn:T]|
     |destruct (loads_int_error a msg L) as [tail ->]
     |destruct (loads_depth_error a msg L) as [-> | [-> | [-> | ->]]]]|];
    cbn [fst snd stderr append type_name];
    repeat split; try solve_cause.
  - intros [a' [d' [A' [L' T']]]]. inversion A'; subst a'.
    rewrite L in L'. inversion L'; subst d'. congruence.
  - intros _. exists a, d. repeat split; assumption.
  - intros _. exists a. split; [reflexivity | assumption].
Qed.

(** X8. The result that is printed nests no deeper than the decoder went:
    whenever the exit code is 0, standard output is the line of a result
    object that nests at most [nesting_limit] containers, the bound within
    which [json.dumps] encodes. *)
Theorem result_nesting (args : list pystr) :
  fst (run args) = Exit 0 ->
  exists query : pyobj,
    stdout (snd (run args)) = json_dumps (result_object query) ++ newline /\
    nesting (result_object query) <= Decoder.nesting_limit.
Proof.
  rewrite run_cases, script_cases.
  unfold start. cbn [sys_argv stdout stderr decoded].
  assert (Two : 2 <= Decoder.nesting_limit)
    by (apply Nat.leb_le; vm_compute; reflexivity).
  destruct (nth_error args 1) as [a|]; [|discriminate].
  destruct (json_loads a) as [v| |msg|msg] eqn:L; try discriminate.
  apply DecoderFacts.loads_nesting in L.
  destruct v as [|b|n|x|s|l|d]; try discriminate. cbv zeta.
  destruct (dict_get d (ustr "query")) as [v|] eqn:G.
  - destruct (truthy v); [|discriminate]. intros _.
    exists v. split; [reflexivity|].
    apply DecoderFacts.nesting_member in G.
    set (n := Decoder.nesting_limit) in *.
    unfold result_object.
    change (S (Nat.max (nesting v) (Nat.max 1 (Nat.max 0 0))) <= n).
    lia.
  - discriminate.
Qed.

Lemma result_nesting_witness :
  exists query : pyobj,
    stdout (snd (run [ustr "search_web_py.py";
                      document "{`query`: [[`cats`], {`a`: []}]}"])) =
    json_dumps (result_object query) ++ newline /\
    nesting (result_object query) <= Decoder.nesting_limit.
Proof.
  apply (result_nesting [ustr "search_web_py.py";
                         document "{`query`: [[`cats`], {`a`: []}]}"]).
  vm_compute. reflexivity.
Defined.
